(** * DecentralizedAIAgent (src/aiAgent.js): a shallow embedding

    The agent of [src/aiAgent.js] is an [EventEmitter] with a status flag, a
    registry of tools (a JS [Map]) and a handful of asynchronous methods that
    call external services: the reasoning service ([openai]), the storage
    service ([ipfs]), the chain client ([ethers]), [uuid], [Math.random] and
    the console.  The embedding keeps the methods and their names.

    - JS values are the inductive [Value]; numbers are IEEE doubles
      ([PrimFloat.float]).
    - An [async] method is a function of the monad [M]: it takes the agent
      (fields, emitted events, external world) and returns the agent together
      with either a value or a thrown error.  [await] is sequencing: the source
      never starts two calls at once.  A thrown error keeps the state reached
      so far, as in JS.
    - What the agent's own code and the libraries throw is an [Error] object,
      a name and a message.  The code of the caller, a tool's handler, may
      throw any value, [null] and [undefined] included ([Thrown]).
    - The external services are the fields of the class [Platform]: functions
      of an abstract [World], so that every answer they give is covered.
    - [emit] appends to the agent's event log.  The listeners are observers
      outside the agent; what a listener does, throwing included, is not
      part of the model.
    - A plain object is its own properties in the order JS lists them:
      array indices ascending, then the other keys in insertion order.
      Prototypes are not modelled, but for the one object the agent writes
      under computed keys, the results object of [executePlan]: a write under
      [__proto__] goes to the accessor of [Object.prototype] and adds no own
      property, as long as that accessor is in reach ([Results]). *)

From Stdlib Require Import String Ascii List Bool Arith NArith Lia PrimFloat DecimalString.
Import ListNotations.
Local Open Scope string_scope.
Local Open Scope list_scope.

Set Implicit Arguments.
Set Warnings "-register-all,-inexact-float,-notation-for-abbreviation".

(** ** Insertion-ordered maps

    A JS [Map] with string keys, and the own properties of a plain object:
    a list of bindings in insertion order, one binding per key.  [set] on a
    present key replaces the value where it stands, [set] on a new key appends
    the binding, which is what [Map.prototype.set] does, and [o[k] = v] for a
    key that is not an array index. *)
Module JsMap.
Section JsMap.
Variable V : Type.

Definition t := list (string * V).

Definition empty : t := [].

Fixpoint get (k : string) (m : t) : option V :=
  match m with
  | [] => None
  | (k', v) :: rest => if String.eqb k k' then Some v else get k rest
  end.

Definition has (k : string) (m : t) : bool :=
  match get k m with Some _ => true | None => false end.

Fixpoint set (k : string) (v : V) (m : t) : t :=
  match m with
  | [] => [(k, v)]
  | (k', v') :: rest =>
      if String.eqb k k' then (k', v) :: rest else (k', v') :: set k v rest
  end.

Definition keys (m : t) : list string := map fst m.

Definition size (m : t) : nat := length m.
End JsMap.
End JsMap.

(** ** Values *)

Inductive Value : Type :=
| VUndefined
| VNull
| VBool (b : bool)
| VNum (x : float)
| VStr (s : string)
| VArr (items : list Value)
| VObj (props : list (string * Value)).

(** The own properties of a plain object. *)
Definition Obj := JsMap.t Value.

(** ToBoolean. *)
Definition truthy (v : Value) : bool :=
  match v with
  | VUndefined | VNull => false
  | VBool b => b
  | VNum x => negb (is_zero x || is_nan x)
  | VStr s => negb (String.eqb s "")
  | VArr _ | VObj _ => true
  end.

Definition nullish (v : Value) : bool :=
  match v with
  | VUndefined | VNull => true
  | _ => false
  end.

(** ** Errors and completions *)

(** An [Error] object: [error.name] and [error.message]. *)
Record JsError := mkError { err_name : string; err_message : string }.

Definition Error (msg : string) : JsError := mkError "Error" msg.
Definition TypeError (msg : string) : JsError := mkError "TypeError" msg.
Definition RangeError (msg : string) : JsError := mkError "RangeError" msg.

(** A call either returns a value or throws; [E] is the kind of thing it can
    throw. *)
Inductive Completion (E A : Type) : Type :=
| Ok (a : A)
| Throw (e : E).
Arguments Ok {E A} a.
Arguments Throw {E A} e.

(** The completions of the agent's own code, of the engine and of the
    libraries: what they throw is an [Error] object. *)
Notation Result := (Completion JsError).

Definition dquote : string := String (ascii_of_nat 34) "".
Definition nl : string := String (ascii_of_nat 10) "".

(** The decimal form of an array index. *)
Definition index_key (i : nat) : string := NilEmpty.string_of_uint (Nat.to_uint i).

(** The array index a property key denotes, when it is the canonical decimal
    form of one. *)
Definition key_index (k : string) : option nat :=
  match NilEmpty.uint_of_string k with
  | Some d => if String.eqb (index_key (Nat.of_uint d)) k then Some (Nat.of_uint d) else None
  | None => None
  end.

(** The array index a property key is, as the order of an object's keys
    takes it: the canonical decimal form of a number below 2^32 - 1. *)
Definition integer_key (k : string) : option N :=
  match NilEmpty.uint_of_string k with
  | Some d =>
      if String.eqb (NilEmpty.string_of_uint (N.to_uint (N.of_uint d))) k
         && N.ltb (N.of_uint d) 4294967295
      then Some (N.of_uint d)
      else None
  | None => None
  end.

Definition describe_nullish (v : Value) : string :=
  match v with VNull => "null" | _ => "undefined" end.

(** [v.k] (and [v[k]] for a string [k]).  Reading a property of [undefined]
    or [null] throws a TypeError (the message is V8's).  An object answers
    with its own property, an array with its element and a string with its
    character at an index key; the keys the agent reads are never inherited
    members ([length] and the methods), so every other read is
    [undefined]. *)
Definition prop (v : Value) (k : string) : Result Value :=
  match v with
  | VUndefined | VNull =>
      Throw (TypeError ("Cannot read properties of " ++ describe_nullish v
                        ++ " (reading '" ++ k ++ "')"))
  | VObj props =>
      Ok (match JsMap.get k props with Some x => x | None => VUndefined end)
  | VArr items =>
      Ok (match key_index k with
          | Some i => nth i items VUndefined
          | None => VUndefined
          end)
  | VStr s =>
      Ok (match key_index k with
          | Some i =>
              match nth_error (list_ascii_of_string s) i with
              | Some c => VStr (String c "")
              | None => VUndefined
              end
          | None => VUndefined
          end)
  | _ => Ok VUndefined
  end.

(** What the caller's code can throw: an [Error] object or any value. *)
Inductive Thrown : Type :=
| ThrownError (e : JsError)
| ThrownValue (v : Value).
Coercion ThrownError : JsError >-> Thrown.

(** [error.message] in a [catch (error)]: the message of an [Error] object,
    the property of another value; of [null] and [undefined] it cannot be
    read. *)
Definition message_of (error : Thrown) : Result Value :=
  match error with
  | ThrownError e => Ok (VStr (err_message e))
  | ThrownValue v => prop v "message"
  end.

(** [const { a, b } = v]: destructuring needs an object-coercible value. *)
Definition destructure (v : Value) (first_key : string) (what : string) : Result unit :=
  if nullish v
  then Throw (TypeError ("Cannot destructure property '" ++ first_key ++ "' of '" ++ what
                         ++ "' as it is " ++ describe_nullish v ++ "."))
  else Ok tt.

(** The property of an object-coercible value ([undefined] where [prop] throws). *)
Definition field (v : Value) (k : string) : Value :=
  match prop v k with Ok x => x | Throw _ => VUndefined end.

Fixpoint indexed (i : nat) (items : list Value) : Obj :=
  match items with
  | [] => []
  | x :: rest => (index_key i, x) :: indexed (S i) rest
  end.

(** A new array index goes before the first key that is not a smaller
    array index. *)
Fixpoint insert_index (n : N) (k : string) (v : Value) (o : Obj) : Obj :=
  match o with
  | [] => [(k, v)]
  | (k', v') :: rest =>
      match integer_key k' with
      | Some n' =>
          if N.ltb n' n then (k', v') :: insert_index n k v rest
          else (k, v) :: (k', v') :: rest
      | None => (k, v) :: (k', v') :: rest
      end
  end.

(** [o[k] = v] on a plain object, for a key other than [__proto__]: a
    present key keeps its place; a new array index is placed in ascending
    order among the array indices, which come first; another new key goes to
    the end. *)
Definition own_set (k : string) (v : Value) (o : Obj) : Obj :=
  match integer_key k with
  | Some n => if JsMap.has k o then JsMap.set k v o else insert_index n k v o
  | None => JsMap.set k v o
  end.

Definition chars (s : string) : list Value :=
  map (fun c => VStr (String c "")) (list_ascii_of_string s).

(** [{ ...v }]: the own enumerable properties of [v]; nothing for
    [undefined], [null], booleans and numbers. *)
Definition spread (v : Value) : Obj :=
  match v with
  | VObj props => props
  | VArr items => indexed 0 items
  | VStr s => indexed 0 (chars s)
  | _ => []
  end.

(** [for (const x of v)]: arrays and strings are iterable, the other values
    here are not. *)
Definition iterate (v : Value) (what : string) : Result (list Value) :=
  match v with
  | VArr items => Ok items
  | VStr s => Ok (chars s)
  | _ => Throw (TypeError (what ++ " is not iterable"))
  end.

Fixpoint join (sep : string) (l : list string) : string :=
  match l with
  | [] => ""
  | [x] => x
  | x :: rest => x ++ sep ++ join sep rest
  end.

(** ** The monad of the methods: state and exceptions

    A computation takes the state and gives it back with a value or a thrown
    error; what was written to the state before a throw stays written. *)

Definition SE (S A : Type) : Type := S -> Result A * S.

Definition ret {S A} (x : A) : SE S A := fun s => (Ok x, s).

Definition throw {S A} (e : JsError) : SE S A := fun s => (Throw e, s).

Definition bind {S A B} (m : SE S A) (k : A -> SE S B) : SE S B :=
  fun s =>
    match m s with
    | (Ok x, s') => k x s'
    | (Throw e, s') => (Throw e, s')
    end.

(** [try { m } catch (error) { h error }] *)
Definition try_catch {S A} (m : SE S A) (h : JsError -> SE S A) : SE S A :=
  fun s =>
    match m s with
    | (Ok x, s') => (Ok x, s')
    | (Throw e, s') => h e s'
    end.

(** A pure step that may throw. *)
Definition lift {S A} (r : Result A) : SE S A := fun s => (r, s).

Definition get_state {S} : SE S S := fun s => (Ok s, s).

Definition modify {S} (f : S -> S) : SE S unit := fun s => (Ok tt, f s).

Declare Scope se_scope.
Delimit Scope se_scope with se.
Notation "x <- m ;; k" := (bind m (fun x => k))
  (at level 100, m at next level, right associativity) : se_scope.
Notation "m ;; k" := (bind m (fun _ => k))
  (at level 100, right associativity) : se_scope.
Local Open Scope se_scope.

(** ** The platform: the JS built-ins and external services the agent calls

    None of these is defined in the repository.  The services answer from an
    abstract [World] that they may change; a rejected promise is a [Throw]. *)

(** The argument of [openai.chat.completions.create]. *)
Record Request := mkRequest {
  req_model : string;
  req_content : string;
  req_temperature : float;
  req_json_object : bool
}.

Class Platform := {
  World : Type;
  (** [this.openai.chat.completions.create(request)] *)
  openai_create : Request -> World -> Result Value * World;
  (** [this.ipfs.add(buffer)], the buffer given by its text *)
  ipfs_add : string -> World -> Result Value * World;
  (** [new ethers.Contract(..)], [connect] and the method call of the
      contract tool, from the tool's parameters *)
  contract_call : Value -> World -> Result Value * World;
  (** [uuidv4()] *)
  uuidv4 : World -> string * World;
  (** [Math.random()] *)
  Math_random : World -> float * World;
  (** [this.logger.info(msg)] and [this.logger.warn(msg)] *)
  logger_info : string -> World -> World;
  logger_warn : string -> World -> World;
  (** [JSON.parse(v)]; a malformed text throws a SyntaxError *)
  JSON_parse : Value -> Result Value;
  (** [JSON.stringify(v)]; [None] is [undefined] *)
  JSON_stringify : Value -> option string;
  (** [Number.prototype.toString(radix)] for radix 10 and 16,
      [Math.floor] and ToNumber *)
  Number_toString : float -> string;
  Number_toString16 : float -> string;
  Math_floor : float -> float;
  ToNumber : Value -> float;
  (** how many nested handler calls the engine's call stack has room for *)
  call_stack : nat;
  (** [new OpenAI({ apiKey })], the key being [""] when there is none;
      [process.env.OPENAI_API_KEY]; [new ethers.providers.JsonRpcProvider(url)];
      [createIPFS({ host, port, protocol })].  Building a client does no
      I/O, but it may throw. *)
  OpenAI_new : string -> Result unit;
  env_OPENAI_API_KEY : string;
  JsonRpcProvider_new : string -> Result unit;
  createIPFS : Result unit
}.

Section Agent.
Context `{P : Platform}.

(** ToString, as template literals and property keys apply it. *)
Fixpoint ToString (v : Value) : string :=
  match v with
  | VUndefined => "undefined"
  | VNull => "null"
  | VBool true => "true"
  | VBool false => "false"
  | VNum x => Number_toString x
  | VStr s => s
  | VArr items =>
      join "," (map (fun x => if nullish x then "" else ToString x) items)
  | VObj _ => "[object Object]"
  end.

(** [`${JSON.stringify(v)}`] *)
Definition stringified (v : Value) : string :=
  match JSON_stringify v with Some s => s | None => "undefined" end.

(** ** Tools *)

(** The handler of a tool: one of the four closures of [registerWeb3Tools],
    or a function supplied by the caller, which acts on the external world
    and may throw any value. *)
Inductive Handler : Type :=
| contractInteract_handler
| tokenSwap_handler
| ipfsStore_handler
| nftCreate_handler
| external_handler (f : Value -> World -> Completion Thrown Value * World).

(** A tool definition as [registerTool] receives it: [name] is [""] and
    [handler] is [None] when the property is missing. *)
Record Tool := mkTool {
  name : string;
  description : string;
  handler : option Handler
}.

(** An emitted event: its name and its payload. *)
Definition Event := (string * Value)%type.

(** ** The agent *)

Record Agent := mkAgent {
  agent_id : string;
  agent_name : string;
  status : string;
  models_reasoning : string;
  models_execution : string;
  networks : list string;
  providers : list string;     (* the networks [blockchain.providers] has an entry for *)
  tools : JsMap.t Tool;
  emitted : list Event;        (* the events emitted so far, oldest first *)
  world : World
}.

Definition with_status (s : string) (a : Agent) : Agent :=
  mkAgent (agent_id a) (agent_name a) s (models_reasoning a) (models_execution a)
          (networks a) (providers a) (tools a) (emitted a) (world a).

Definition with_tools (t : JsMap.t Tool) (a : Agent) : Agent :=
  mkAgent (agent_id a) (agent_name a) (status a) (models_reasoning a) (models_execution a)
          (networks a) (providers a) t (emitted a) (world a).

Definition with_emitted (e : list Event) (a : Agent) : Agent :=
  mkAgent (agent_id a) (agent_name a) (status a) (models_reasoning a) (models_execution a)
          (networks a) (providers a) (tools a) e (world a).

Definition with_world (w : World) (a : Agent) : Agent :=
  mkAgent (agent_id a) (agent_name a) (status a) (models_reasoning a) (models_execution a)
          (networks a) (providers a) (tools a) (emitted a) w.

(** ** The methods' state: the agent with its event log and the world *)

Definition M (A : Type) : Type := SE Agent A.

(** A call of an external service that may reject. *)
Definition call {A} (f : World -> Result A * World) : M A :=
  fun a => let (r, w) := f (world a) in (r, with_world w a).

(** A call of an external function that always answers. *)
Definition ask {A} (f : World -> A * World) : M A :=
  fun a => let (x, w) := f (world a) in (Ok x, with_world w a).

(** The agent with one more event in its log. *)
Definition logged (ev : Event) (a : Agent) : Agent :=
  with_emitted (emitted a ++ [ev]) a.

(** [this.emit(name, payload)]: the event joins the log. *)
Definition emit (ev : string) (payload : Value) : M unit :=
  modify (logged (ev, payload)).

Definition log_info (msg : string) : M unit :=
  modify (fun a => with_world (logger_info msg (world a)) a).

Definition log_warn (msg : string) : M unit :=
  modify (fun a => with_world (logger_warn msg (world a)) a).

(** A method that touches the external world only: the status, the registry
    and the event log are as before. *)
Definition only_world {R} (m : Agent -> R * Agent) : Prop :=
  forall a, exists w, snd (m a) = with_world w a.

(** ** The tool registry *)

(** [this.tools.get(toolName)] and [this.tools.has(toolName)]: the keys of
    the registry are strings, so another kind of value finds nothing. *)
Definition tools_get (toolName : Value) (a : Agent) : option Tool :=
  match toolName with
  | VStr s => JsMap.get s (tools a)
  | _ => None
  end.

Definition tools_has (toolName : Value) (a : Agent) : bool :=
  match toolName with
  | VStr s => JsMap.has s (tools a)
  | _ => false
  end.

Definition missing {A} (o : option A) : bool :=
  match o with Some _ => false | None => true end.

(** [registerTool(toolDefinition)]; [return this] is the unit. *)
Definition registerTool (toolDefinition : Tool) : M unit :=
  if String.eqb (name toolDefinition) "" || missing (handler toolDefinition)
  then throw (Error "Tool must have a name and handler function")
  else modify (fun a =>
         with_tools (JsMap.set (name toolDefinition) toolDefinition (tools a)) a).

(** [enableTool(toolName)] *)
Definition enableTool (toolName : Value) : M unit :=
  a <- get_state ;;
  if tools_has toolName a
  then ret tt
  else log_warn ("No built-in tool found with name: " ++ ToString toolName).

(** A call of caller-supplied code: it may throw any value. *)
Definition Invocation : Type := Agent -> Completion Thrown Value * Agent.

(** The agent's own code, seen as such a call: what it throws is an
    [Error] object. *)
Definition raised (m : M Value) : Invocation :=
  fun a =>
    match m a with
    | (Ok v, a') => (Ok v, a')
    | (Throw e, a') => (Throw (ThrownError e), a')
    end.

(** [try { m } catch (error) { h error }] around such a call. *)
Definition try_catch_any {A} (m : Agent -> Completion Thrown A * Agent)
    (h : Thrown -> M A) : M A :=
  fun a =>
    match m a with
    | (Ok x, a') => (Ok x, a')
    | (Throw error, a') => h error a'
    end.

(** The object [{ success: false, error: error.message }], for an [Error]
    object. *)
Definition soft_failure (error : JsError) : Value :=
  VObj [("success", VBool false); ("error", VStr (err_message error))].

(** [executeTool(toolName, parameters)], over the way a handler is invoked.
    A registered tool is an object, so [!tool] holds exactly when the lookup
    found nothing. *)
Definition executeTool_with (invoke : Handler -> Value -> Invocation)
    (toolName parameters : Value) : M Value :=
  a <- get_state ;;
  match tools_get toolName a with
  | None => throw (Error ("Tool not found: " ++ ToString toolName))
  | Some tool =>
      try_catch_any
        (match handler tool with
         | Some h => invoke h parameters
         | None => raised (throw (TypeError "tool.handler is not a function"))
         end)
        (fun error =>
           message <- lift (message_of error) ;;
           ret (VObj [("success", VBool false); ("error", message)]))
  end.

(** ** The handlers of [registerWeb3Tools] *)

(** [Math.random().toString(16).substring(2, 34)] *)
Definition random_hex : M string :=
  x <- ask Math_random ;;
  ret (substring 2 32 (Number_toString16 x)).

(** The handler of [contractInteract]. *)
Definition contractInteract (params : Value) : M Value :=
  lift (destructure params "network" "params") ;;
  let network := field params "network" in
  a <- get_state ;;
  if negb (existsb (String.eqb (ToString network)) (providers a))
  then ret (VObj [("success", VBool false);
                  ("error", VStr ("Network " ++ ToString network ++ " not supported"))])
  else
    try_catch
      (result <- call (contract_call params) ;;
       ret (VObj [("success", VBool true); ("result", result)]))
      (fun error => ret (soft_failure error)).

(** The handler of [tokenSwap]. *)
Definition tokenSwap (params : Value) : M Value :=
  lift (destructure params "network" "params") ;;
  let network := field params "network" in
  let fromToken := field params "fromToken" in
  let toToken := field params "toToken" in
  let amount := field params "amount" in
  log_info ("Simulating token swap on " ++ ToString network ++ ": " ++ ToString amount
            ++ " " ++ ToString fromToken ++ " -> " ++ ToString toToken) ;;
  h <- random_hex ;;
  ret (VObj [("success", VBool true);
             ("fromAmount", amount);
             ("toAmount", VNum (ToNumber amount * 1.5)%float);
             ("txHash", VStr ("0x" ++ h))]).

(** [Buffer.from(text)]; [undefined] is refused. *)
Definition Buffer_from (text : option string) : Result string :=
  match text with
  | Some s => Ok s
  | None => Throw (TypeError "The first argument must be of type string or an instance of Buffer, ArrayBuffer, or Array or an Array-like Object. Received undefined")
  end.

(** The handler of [ipfsStore]. *)
Definition ipfsStore (params : Value) : M Value :=
  lift (destructure params "content" "params") ;;
  let content := field params "content" in
  contentBuffer <- lift (Buffer_from (JSON_stringify content)) ;;
  try_catch
    (result <- call (ipfs_add contentBuffer) ;;
     path <- lift (prop result "path") ;;
     ret (VObj [("success", VBool true);
                ("cid", path);
                ("url", VStr ("ipfs://" ++ ToString path));
                ("gatewayUrl", VStr ("https://ipfs.io/ipfs/" ++ ToString path))]))
    (fun error => ret (soft_failure error)).

(** The handler of [nftCreate], over [this.executeTool]. *)
Definition nftCreate (executeTool : Value -> Value -> M Value) (params : Value) : M Value :=
  lift (destructure params "network" "params") ;;
  let metadata := field params "metadata" in
  (* Store metadata on IPFS *)
  ipfsResult <- executeTool (VStr "ipfsStore")
                  (VObj [("content", metadata); ("type", VStr "metadata")]) ;;
  success <- lift (prop ipfsResult "success") ;;
  if negb (truthy success)
  then ret ipfsResult
  else
    x <- ask Math_random ;;
    metadataUri <- lift (prop ipfsResult "url") ;;
    h <- random_hex ;;
    ret (VObj [("success", VBool true);
               ("tokenId", VNum (Math_floor (x * 1000000)%float));
               ("metadataUri", metadataUri);
               ("txHash", VStr ("0x" ++ h))]).

(** [tool.handler(parameters)] with room for [depth] nested handler calls.
    The mint handler calls back into [executeTool], which calls the handler
    registered under [ipfsStore], whatever it is; a chain of calls that fills
    the call stack ends in the engine's RangeError. *)
Fixpoint call_handler (depth : nat) (h : Handler) (parameters : Value) : Invocation :=
  match depth with
  | 0 => raised (throw (RangeError "Maximum call stack size exceeded"))
  | S d =>
      match h with
      | contractInteract_handler => raised (contractInteract parameters)
      | tokenSwap_handler => raised (tokenSwap parameters)
      | ipfsStore_handler => raised (ipfsStore parameters)
      | nftCreate_handler =>
          raised (nftCreate (executeTool_with (call_handler d)) parameters)
      | external_handler f =>
          fun a => let (r, w) := f parameters (world a) in (r, with_world w a)
      end
  end.

Definition executeTool_at (depth : nat) : Value -> Value -> M Value :=
  executeTool_with (call_handler depth).

(** [executeTool(toolName, parameters)] *)
Definition executeTool : Value -> Value -> M Value := executeTool_at call_stack.

(** [registerWeb3Tools()] *)
Definition registerWeb3Tools : M unit :=
  registerTool (mkTool "contractInteract"
                  "Interact with smart contracts on supported blockchains"
                  (Some contractInteract_handler)) ;;
  registerTool (mkTool "tokenSwap" "Swap tokens on decentralized exchanges"
                  (Some tokenSwap_handler)) ;;
  registerTool (mkTool "ipfsStore" "Store data on IPFS" (Some ipfsStore_handler)) ;;
  registerTool (mkTool "nftCreate" "Create an NFT on supported blockchains"
                  (Some nftCreate_handler)).

(** [enableTool(toolName)] while the constructor runs: [this.logger] is
    assigned on the constructor's last line, after the configured tools are
    enabled, so the warning about an unknown name reads a property of
    [undefined]. *)
Definition enableTool_unlogged (toolName : Value) : M unit :=
  a <- get_state ;;
  if tools_has toolName a
  then ret tt
  else throw (TypeError "Cannot read properties of undefined (reading 'warn')").

(** ** Tasks and prompts *)

(** A task: the two properties of the task object the agent reads
    ([undefined] when absent). *)
Record Task := mkTask {
  objective : Value;
  walletAddress : Value
}.

(** One line of a prompt, indented as the template literals are. *)
Definition line (text : string) : string := "      " ++ text ++ nl.

Definition planningPrompt (task : Task) (a : Agent) : string :=
  nl
  ++ line ("Create a step-by-step plan for: " ++ dquote ++ ToString (objective task)
           ++ dquote ++ ".")
  ++ line ""
  ++ line ("Available Web3 tools: " ++ join ", " (JsMap.keys (tools a)))
  ++ line ("Supported blockchains: " ++ join ", " (networks a))
  ++ line ""
  ++ line "Format the response as a JSON array of steps, each with:"
  ++ line "- id: string"
  ++ line "- description: string"
  ++ line "- tool: string (if applicable)"
  ++ line "- parameters: object (if applicable)"
  ++ "    ".

Definition reasoningPrompt (description : Value) (previousResults : Obj) : string :=
  nl
  ++ line ("You are executing step: " ++ dquote ++ ToString description ++ dquote)
  ++ line ""
  ++ line ("Previous results: " ++ stringified (VObj previousResults))
  ++ line ""
  ++ line "Provide your reasoning and conclusion for this step."
  ++ "    ".

Definition reportPrompt (task : Task) (results : Obj) : string :=
  nl
  ++ line ("Summarize the results of the task: " ++ dquote ++ ToString (objective task)
           ++ dquote)
  ++ line ""
  ++ line ("Step results: " ++ stringified (VObj results))
  ++ line ""
  ++ line "Create a concise summary of what was accomplished and any relevant blockchain transaction details."
  ++ "    ".

(** [response.choices[0].message.content] *)
Definition message_content (response : Value) : M Value :=
  choices <- lift (prop response "choices") ;;
  first <- lift (prop choices "0") ;;
  message <- lift (prop first "message") ;;
  lift (prop message "content").

(** ** Planning *)

(** [createPlan(task)] *)
Definition createPlan (task : Task) : M Value :=
  a <- get_state ;;
  response <- call (openai_create
                      (mkRequest (models_reasoning a) (planningPrompt task a) 0.2 true)) ;;
  try_catch
    (planContent <- message_content response ;;
     parsed <- lift (JSON_parse planContent) ;;
     lift (prop parsed "steps"))
    (fun error => throw (Error ("Failed to create plan: " ++ err_message error))).

(** ** Executing a plan *)

(** [executeReasoning(step, previousResults)] *)
Definition executeReasoning (step : Value) (previousResults : Obj) : M Value :=
  description <- lift (prop step "description") ;;
  a <- get_state ;;
  response <- call (openai_create
                      (mkRequest (models_execution a)
                         (reasoningPrompt description previousResults) 0.5 false)) ;;
  reasoning <- message_content response ;;
  ret (VObj [("success", VBool true); ("reasoning", reasoning)]).

(** [createFinalReport(task, results)] *)
Definition createFinalReport (task : Task) (results : Obj) : M Value :=
  a <- get_state ;;
  response <- call (openai_create
                      (mkRequest (models_execution a) (reportPrompt task results) 0.3 false)) ;;
  summary <- message_content response ;;
  ret (VObj [("success", VBool true);
             ("objective", objective task);
             ("summary", summary);
             ("results", VObj results)]).

(** The value of [stepResult] in the loop of [executePlan]: the tool's
    result when [step.tool] names a registered tool, the reasoning fallback
    over the results so far otherwise. *)
Definition executeStep (task : Task) (step : Value) (results : Obj) : M Value :=
  tool <- lift (prop step "tool") ;;
  a <- get_state ;;
  if truthy tool && tools_has tool a
  then
    (* Execute with the specified tool *)
    parameters <- lift (prop step "parameters") ;;
    executeTool tool
      (VObj (JsMap.set "walletAddress" (walletAddress task) (spread parameters)))
  else
    (* Use AI reasoning for steps without specific tools *)
    executeReasoning step results.

(** The [results] object of [executePlan]: its own properties, and whether
    an assignment to [results.__proto__] still reaches the accessor that
    [Object.prototype] defines under that name. *)
Record Results := mkResults {
  own : Obj;
  inherits_setter : bool
}.

(** [const results = {}], and more generally a plain object. *)
Definition plain (properties : Obj) : Results := mkResults properties true.

(** The accessor makes an object or [null] the prototype of [results] and
    ignores any other value.  After it the accessor is still reached unless
    the new prototype is [null] or has a property [__proto__] of its own. *)
Definition keeps_setter (v : Value) : bool :=
  match v with
  | VNull => false
  | VObj properties => negb (JsMap.has "__proto__" properties)
  | _ => true
  end.

(** [results[step.id] = stepResult]: the key is the string of [step.id].
    The assignment comes after [step.tool] was read, so [step] is neither
    [undefined] nor [null] and reading [step.id] cannot throw.  Under the key
    [__proto__] the assignment calls the accessor when it is reached and adds
    no own property; under every other key, and under [__proto__] when the
    accessor is out of reach, it writes an own property. *)
Definition store (step stepResult : Value) (results : Results) : Results :=
  if String.eqb (ToString (field step "id")) "__proto__"
     && inherits_setter results
     && negb (JsMap.has "__proto__" (own results))
  then mkResults (own results) (keeps_setter stepResult)
  else mkResults (own_set (ToString (field step "id")) stepResult (own results))
                 (inherits_setter results).

(** One round of the loop of [executePlan]; it gives the results object as
    the round leaves it. *)
Definition executePlan_round (task : Task) (step : Value) (results : Results)
    : M Results :=
  emit "stepStart" (VObj [("step", step)]) ;;
  try_catch
    (stepResult <- executeStep task step (own results) ;;
     let results := store step stepResult results in
     emit "stepComplete" (VObj [("step", step); ("result", stepResult)]) ;;
     ret results)
    (fun error =>
       emit "stepFailed" (VObj [("step", step); ("error", VStr (err_message error))]) ;;
       throw error).

(** [for (const step of plan) { .. }] on the results object as it is. *)
Fixpoint executePlan_rounds (task : Task) (steps : list Value) (results : Results)
    : M Results :=
  match steps with
  | [] => ret results
  | step :: rest =>
      results <- executePlan_round task step results ;;
      executePlan_rounds task rest results
  end.

(** The loop on a plain object: it gives the own properties the rounds
    leave. *)
Definition executePlan_loop (task : Task) (steps : list Value) (results : Obj) : M Obj :=
  results <- executePlan_rounds task steps (plain results) ;;
  ret (own results).

(** The events of a round. *)
Definition stepStart (step : Value) : Event :=
  ("stepStart", VObj [("step", step)]).

Definition stepComplete (step result : Value) : Event :=
  ("stepComplete", VObj [("step", step); ("result", result)]).

Definition stepFailed (step : Value) (error : JsError) : Event :=
  ("stepFailed", VObj [("step", step); ("error", VStr (err_message error))]).

(** The key a step's result is stored under. *)
Definition step_key (step : Value) : string := ToString (field step "id").

(** The results object after the results [pairs] (each a step with its
    result) were stored in turn, and the events of rounds that completed. *)
Definition stored (pairs : list (Value * Value)) (results : Results) : Results :=
  fold_left (fun acc p => store (fst p) (snd p) acc) pairs results.

Definition rounds_events (pairs : list (Value * Value)) : list Event :=
  flat_map (fun p => [stepStart (fst p); stepComplete (fst p) (snd p)]) pairs.

(** [executePlan(plan, task)] *)
Definition executePlan (plan : Value) (task : Task) : M Value :=
  steps <- lift (iterate plan "plan") ;;
  results <- executePlan_loop task steps (JsMap.empty Value) ;;
  (* Create final report *)
  createFinalReport task results.

(** ** Running a task *)

(** What [run] is called with: a task object, or [undefined] or [null]. *)
Inductive Submitted : Type :=
| task_object (task : Task)
| task_undefined
| task_null.
Coercion task_object : Task >-> Submitted.

(** The object behind [task.objective], the first read of the task; of
    [undefined] and [null] no property can be read. *)
Definition the_task (task : Submitted) : Result Task :=
  match task with
  | task_object t => Ok t
  | task_undefined =>
      Throw (TypeError "Cannot read properties of undefined (reading 'objective')")
  | task_null =>
      Throw (TypeError "Cannot read properties of null (reading 'objective')")
  end.

(** [run(task)] *)
Definition run (task : Submitted) : M Value :=
  a <- get_state ;;
  if negb (String.eqb (status a) "idle")
  then throw (Error "Agent is already running a task")
  else
    taskId <- ask uuidv4 ;;
    modify (with_status "running") ;;
    task <- lift (the_task task) ;;
    log_info ("Starting task: " ++ ToString (objective task)) ;;
    emit "taskStart" (VObj [("taskId", VStr taskId); ("objective", objective task)]) ;;
    try_catch
      ((* Create a plan based on the objective *)
       plan <- createPlan task ;;
       (* Execute the plan *)
       result <- executePlan plan task ;;
       modify (with_status "idle") ;;
       emit "taskComplete" (VObj [("taskId", VStr taskId); ("result", result)]) ;;
       ret result)
      (fun error =>
         modify (with_status "idle") ;;
         emit "taskFailed" (VObj [("taskId", VStr taskId);
                                  ("error", VStr (err_message error))]) ;;
         throw error).

(** The statements of [run] between its guard and its [try]: they give the
    task id. *)
Definition run_prologue (task : Task) : M string :=
  taskId <- ask uuidv4 ;;
  modify (with_status "running") ;;
  log_info ("Starting task: " ++ ToString (objective task)) ;;
  emit "taskStart" (VObj [("taskId", VStr taskId); ("objective", objective task)]) ;;
  ret taskId.

(** The agent as [run] enters its [try]. *)
Definition started (task : Task) (a : Agent) : Agent := snd (run_prologue task a).

(** ** Construction *)

(** The configuration: an empty string stands for a missing or empty text,
    [None] for a missing list. *)
Record Config := mkConfig {
  config_name : string;
  config_reasoning : string;
  config_execution : string;
  config_networks : option (list string);
  config_web3Tools : option (list Value);
  config_apiKey : string;          (* [config.apiKeys?.openai] *)
  config_rpc_ethereum : string;    (* [config.rpcUrls?.ethereum] *)
  config_rpc_polygon : string      (* [config.rpcUrls?.polygon] *)
}.

(** [text || fallback] *)
Definition or_else (text fallback : string) : string :=
  if String.eqb text "" then fallback else text.

(** [this.blockchain.networks.includes(n)] *)
Definition includes (n : string) (nets : list string) : bool :=
  existsb (String.eqb n) nets.

Definition add_provider (n : string) : M unit :=
  modify (fun a =>
    mkAgent (agent_id a) (agent_name a) (status a) (models_reasoning a)
            (models_execution a) (networks a) (providers a ++ [n]) (tools a)
            (emitted a) (world a)).

(** [initializeBlockchainProviders(config)]: a provider is built for
    ethereum and for polygon when the network is configured; solana gets a
    plain object. *)
Definition initializeBlockchainProviders (config : Config) : M unit :=
  a <- get_state ;;
  (if includes "ethereum" (networks a)
   then
     lift (JsonRpcProvider_new
             (or_else (config_rpc_ethereum config)
                "https://mainnet.infura.io/v3/your-key")) ;;
     add_provider "ethereum"
   else ret tt) ;;
  (if includes "polygon" (networks a)
   then
     lift (JsonRpcProvider_new
             (or_else (config_rpc_polygon config) "https://polygon-rpc.com")) ;;
     add_provider "polygon"
   else ret tt) ;;
  (if includes "solana" (networks a)
   then add_provider "solana"
   else ret tt).

Fixpoint forEach {A} (f : A -> M unit) (l : list A) : M unit :=
  match l with
  | [] => ret tt
  | x :: rest => f x ;; forEach f rest
  end.

(** [new DecentralizedAIAgent(config)].  The fields that are plain values
    are set at once: when a later statement throws there is no agent, so the
    order among them is not seen. *)
Definition constructor (config : Config) (w : World) : Result unit * Agent :=
  let (id, w) := uuidv4 w in
  let nets := match config_networks config with Some l => l | None => ["ethereum"] end in
  let this :=
    mkAgent id (or_else (config_name config) "Web3Agent") "idle"
      (or_else (config_reasoning config) "gpt-4")
      (or_else (config_execution config) "gpt-3.5-turbo")
      nets [] (JsMap.empty Tool) [] w in
  (lift (OpenAI_new (or_else (config_apiKey config) env_OPENAI_API_KEY)) ;;
   (* Initialize blockchain providers *)
   initializeBlockchainProviders config ;;
   (* Initialize IPFS *)
   lift createIPFS ;;
   (* Web3 tools registry *)
   registerWeb3Tools ;;
   (* Register custom tools *)
   match config_web3Tools config with
   | Some names => forEach enableTool_unlogged names
   | None => ret tt
   end) this.

End Agent.

(** ** A sample platform

    A platform to run the agent on: the reasoning service answers from a
    script, the storage service is up or down, and [JSON.parse] knows the
    documents of a table. *)
Module Sample.

Record Script := mkScript {
  answers : list (Result Value);   (* what the reasoning service answers, in turn *)
  requests : list Request;         (* the requests it has received *)
  storage_up : bool
}.

(** [text] between double quotes. *)
Definition q (text : string) : string := dquote ++ text ++ dquote.

(** A completion whose message content is [content]. *)
Definition completion (content : Value) : Value :=
  VObj [("choices", VArr [VObj [("message", VObj [("content", content)])]])].

(** The plans the script uses: three steps, the first two on tools; a step on
    an unregistered tool; a step on the storage tool. *)
Definition s1 : Value :=
  VObj [("id", VStr "s1"); ("tool", VStr "flaky"); ("parameters", VObj [])].
Definition s2 : Value :=
  VObj [("id", VStr "s2"); ("tool", VStr "refuse"); ("parameters", VObj [])].
Definition s3 : Value :=
  VObj [("id", VStr "s3"); ("description", VStr "wrap up")].
Definition missing_step : Value :=
  VObj [("id", VStr "s1"); ("tool", VStr "missingTool")].

Definition plan_text : string :=
  "{" ++ q "steps" ++ ":[{" ++ q "id" ++ ":" ++ q "s1" ++ "," ++ q "tool" ++ ":" ++ q "flaky"
  ++ "," ++ q "parameters" ++ ":{}},{" ++ q "id" ++ ":" ++ q "s2" ++ "," ++ q "tool" ++ ":"
  ++ q "refuse" ++ "," ++ q "parameters" ++ ":{}},{" ++ q "id" ++ ":" ++ q "s3" ++ ","
  ++ q "description" ++ ":" ++ q "wrap up" ++ "}]}".

Definition two_step_text : string :=
  "{" ++ q "steps" ++ ":[{" ++ q "id" ++ ":" ++ q "s1" ++ "," ++ q "tool" ++ ":" ++ q "flaky"
  ++ "," ++ q "parameters" ++ ":{}},{" ++ q "id" ++ ":" ++ q "s3" ++ ","
  ++ q "description" ++ ":" ++ q "wrap up" ++ "}]}".

Definition no_steps_text : string := "{" ++ q "plan" ++ ":[]}".

Definition documents : JsMap.t Value :=
  [ (plan_text, VObj [("steps", VArr [s1; s2; s3])]);
    (two_step_text, VObj [("steps", VArr [s1; s3])]);
    (no_steps_text, VObj [("plan", VArr [])]);
    ("{}", VObj []) ].

Definition parse (v : Value) : Result Value :=
  match v with
  | VStr text =>
      match JsMap.get text documents with
      | Some d => Ok d
      | None => Throw (mkError "SyntaxError" "Unexpected token in JSON")
      end
  | VNull => Ok VNull
  | _ => Throw (mkError "SyntaxError" "Unexpected token in JSON")
  end.

(** A stand-in for [JSON.stringify]: an object is shown by its keys. *)
Definition show (v : Value) : option string :=
  match v with
  | VUndefined => None
  | VStr s => Some (q s)
  | VObj props => Some ("{" ++ join "," (JsMap.keys props) ++ "}")%string
  | _ => Some "null"
  end.

Definition answer (r : Request) (w : Script) : Result Value * Script :=
  match answers w with
  | [] => (Throw (Error "Connection error."), mkScript [] (requests w ++ [r]) (storage_up w))
  | x :: rest => (x, mkScript rest (requests w ++ [r]) (storage_up w))
  end.

#[export] Instance platform : Platform := {|
  World := Script;
  openai_create := answer;
  ipfs_add := fun _ w =>
    if storage_up w then (Ok (VObj [("path", VStr "Qm123")]), w)
    else (Throw (Error "connect ECONNREFUSED"), w);
  contract_call := fun _ w => (Ok VNull, w);
  uuidv4 := fun w => ("6f1c2a9e-0000-4000-8000-000000000001", w);
  Math_random := fun w => (0.5%float, w);
  logger_info := fun _ w => w;
  logger_warn := fun _ w => w;
  JSON_parse := parse;
  JSON_stringify := show;
  Number_toString := fun _ => "0";
  Number_toString16 := fun _ => "0.8";
  Math_floor := fun x => x;
  ToNumber := fun v => match v with VNum x => x | _ => nan end;
  call_stack := 8;
  OpenAI_new := fun key =>
    if String.eqb key ""
    then Throw (mkError "OpenAIError"
                  "The OPENAI_API_KEY environment variable is missing or empty")
    else Ok tt;
  env_OPENAI_API_KEY := "sk-sample";
  JsonRpcProvider_new := fun _ => Ok tt;
  createIPFS := Ok tt
|}.

(** Three tools of the caller: one whose handler throws, one that reports a
    failure of its own, one that replaces the storage tool by a stub. *)
Definition flaky : Tool :=
  mkTool "flaky" "throws"
    (Some (external_handler (fun _ w => (Throw (ThrownError (Error "boom")), w)))).

Definition nuller : Tool :=
  mkTool "nuller" "throws null"
    (Some (external_handler (fun _ w => (Throw (ThrownValue VNull), w)))).

Definition refuse : Tool :=
  mkTool "refuse" "reports a failure"
    (Some (external_handler (fun _ w =>
       (Ok (VObj [("success", VBool false); ("error", VStr "insufficient funds")]), w)))).

Definition ipfs_stub : Tool :=
  mkTool "ipfsStore" "stub"
    (Some (external_handler (fun _ w =>
       (Ok (VObj [("success", VBool true); ("cid", VStr "Qm123")]), w)))).

Definition default_config : Config := mkConfig "" "" "" None None "" "" "".

(** A fresh agent with [flaky] and [refuse] registered, facing a script. *)
Definition agent (script : list (Result Value)) (up : bool) : Agent :=
  snd ((registerTool flaky ;; registerTool refuse)
         (snd (constructor default_config (mkScript script [] up)))).

Definition task : Task := mkTask (VStr "mint a collectible") (VStr "0xabc").

(** An answer of the reasoning service with the message [text]; a script
    that answers a plan, one reasoning step and the summary. *)
Definition reply (text : string) : Result Value := Ok (completion (VStr text)).

Definition script (plan : string) : list (Result Value) :=
  [reply plan; reply "think"; reply "done"].

(** What the two tools' steps record, and what the storage tool gives when
    the storage service is down. *)
Definition boom : Value :=
  VObj [("success", VBool false); ("error", VStr "boom")].

Definition refused : Value :=
  VObj [("success", VBool false); ("error", VStr "insufficient funds")].

Definition down : Value :=
  VObj [("success", VBool false); ("error", VStr "connect ECONNREFUSED")].

Definition thought : Value :=
  VObj [("success", VBool true); ("reasoning", VStr "think")].

(** A second definition under the name of [flaky]. *)
Definition flaky_again : Tool := mkTool "flaky" "replaced" (Some ipfsStore_handler).

Definition collectible : Value :=
  VObj [("network", VStr "ethereum");
        ("metadata", VObj [("name", VStr "Collectible #1")])].

(** The agent of the full run after planning, and after the three rounds. *)
Definition planned : Agent :=
  snd (createPlan task (started task (agent (script plan_text) true))).

Definition finished : Agent :=
  snd (executePlan_loop task [s1; s2; s3] (JsMap.empty Value) planned).

(** The report of the full run. *)
Definition report : Value :=
  VObj [("success", VBool true);
        ("objective", VStr "mint a collectible");
        ("summary", VStr "done");
        ("results", VObj [("s1", boom); ("s2", refused); ("s3", thought)])].

(** The agent after the rounds of [s1] and [s2]. *)
Definition after_two : Agent :=
  snd (executePlan_loop task [s1; s2] (JsMap.empty Value) (agent [reply "think"] true)).

(** More sample data: a fresh world, a definition without a name, two
    configurations (the second is the one of the README's quick start), the
    parameters of a contract call, a swap and a storage write, steps that
    carry a wallet address of their own and that repeat an id, and an answer
    of the reasoning service without [choices]. *)
Definition fresh : Script := mkScript [] [] true.

Definition nameless : Tool := mkTool "" "no name" (Some tokenSwap_handler).

Definition config_known : Config :=
  mkConfig "Web3Assistant" "" "" (Some ["ethereum"; "polygon"; "arbitrum"])
    (Some [VStr "contractInteract"; VStr "tokenSwap"]) "" "" "".

Definition config_readme : Config :=
  mkConfig "Web3Assistant" "" "" (Some ["ethereum"; "polygon"])
    (Some [VStr "walletConnect"; VStr "contractInteract"; VStr "tokenSwap"]) "" "" "".


Definition on_ethereum : Value :=
  VObj [("network", VStr "ethereum"); ("method", VStr "balanceOf")].


Definition document : Value := VObj [("content", VObj [("a", VNum 1)])].

Definition s_wallet : Value :=
  VObj [("id", VStr "s1"); ("tool", VStr "refuse");
        ("parameters", VObj [("walletAddress", VStr "0xstep"); ("amount", VStr "5")])].

Definition s1_again : Value :=
  VObj [("id", VStr "s1"); ("tool", VStr "refuse"); ("parameters", VObj [])].

Definition no_choices : Value := VObj [].

(** A step whose id is [__proto__], a step on the tool that throws [null],
    and the agent with that tool registered as well. *)
Definition s_proto : Value :=
  VObj [("id", VStr "__proto__"); ("tool", VStr "refuse"); ("parameters", VObj [])].

Definition s_null : Value :=
  VObj [("id", VStr "s1"); ("tool", VStr "nuller"); ("parameters", VObj [])].

Definition careless (script : list (Result Value)) : Agent :=
  snd (registerTool nuller (agent script true)).

(** A step on the tool [refuse] with the id [id]. *)
Definition refusing (id : string) : Value :=
  VObj [("id", VStr id); ("tool", VStr "refuse"); ("parameters", VObj [])].


Definition after_repeat : Agent :=
  snd (executePlan_loop task [s1; s1_again] (JsMap.empty Value) (agent [] true)).

(** The agent after the rounds of [s1; s1_again] and after the round of
    [s_proto], when the reasoning service has one answer left. *)
Definition after_repeat_thinking : Agent :=
  snd (executePlan_loop task [s1; s1_again] (JsMap.empty Value)
         (agent [reply "think"] true)).

Definition after_proto : Agent :=
  snd (executePlan_loop task [s_proto] (JsMap.empty Value) (agent [reply "think"] true)).

End Sample.

(** The claim of a class of its own for an error: it is not the plain
    [Error]. *)
Definition own_class (e : JsError) : Prop := err_name e <> "Error".

(** The names [registerWeb3Tools] registers, in its order. *)
Definition builtin_names : list string :=
  ["contractInteract"; "tokenSwap"; "ipfsStore"; "nftCreate"].

(** A value that is one of those names. *)
Definition builtin (toolName : Value) : bool :=
  match toolName with
  | VStr s => existsb (String.eqb s) builtin_names
  | _ => false
  end.

(** The handlers defined in [registerWeb3Tools], as opposed to a caller's. *)
Definition builtin_handler `{P : Platform} (h : Handler) : bool :=
  match h with
  | external_handler _ => false
  | _ => true
  end.

(** The events of the loop of [executePlan]. *)
Definition step_event (ev : Event) : Prop :=
  In (fst ev) ["stepStart"; "stepComplete"; "stepFailed"].

(** The last event of a run, from what [run] gives. *)
Definition closing_event (taskId : string) (outcome : Result Value) : Event :=
  match outcome with
  | Ok result => ("taskComplete", VObj [("taskId", VStr taskId); ("result", result)])
  | Throw e => ("taskFailed", VObj [("taskId", VStr taskId);
                                    ("error", VStr (err_message e))])
  end.

(** An object that holds exactly the recorded results [rs] of the steps
    [pre]: the result of each step under the step's id, and no other key. *)
Definition holds_exactly `{P : Platform} (results : Obj) (pre rs : list Value) : Prop :=
  (forall i s r,
      nth_error pre i = Some s -> nth_error rs i = Some r ->
      JsMap.get (step_key s) results = Some r)
  /\ (forall k, In k (JsMap.keys results) -> In k (map step_key pre)).

(** The clients the constructor builds are built: [new OpenAI(..)] accepts
    the configured key (or the one of the environment), the provider of each
    configured network among ethereum and polygon accepts its URL, and
    [createIPFS(..)] returns. *)
Definition clients_start `{P : Platform} (config : Config) : Prop :=
  let nets := match config_networks config with Some l => l | None => ["ethereum"] end in
  OpenAI_new (or_else (config_apiKey config) env_OPENAI_API_KEY) = Ok tt
  /\ (includes "ethereum" nets = true ->
      JsonRpcProvider_new
        (or_else (config_rpc_ethereum config) "https://mainnet.infura.io/v3/your-key")
      = Ok tt)
  /\ (includes "polygon" nets = true ->
      JsonRpcProvider_new (or_else (config_rpc_polygon config) "https://polygon-rpc.com")
      = Ok tt)
  /\ createIPFS = Ok tt.


(** * Properties *)

(** ** The insertion-ordered map *)
Section JsMapFacts.
Context {V : Type}.
Implicit Types (m : JsMap.t V) (k : string) (v : V).

Lemma get_set_same m k v : JsMap.get k (JsMap.set k v m) = Some v.
Proof.
  induction m as [|[k' v'] rest IH]; simpl.
  - now rewrite String.eqb_refl.
  - destruct (String.eqb k k') eqn:E; simpl; rewrite E; auto.
Qed.

Lemma get_set_other m k k' v :
  k <> k' -> JsMap.get k' (JsMap.set k v m) = JsMap.get k' m.
Proof.
  intros N. induction m as [|[k0 v0] rest IH]; simpl.
  - destruct (String.eqb_spec k' k); congruence.
  - destruct (String.eqb_spec k k0) as [->|]; simpl.
    + destruct (String.eqb_spec k' k0); congruence.
    + now rewrite IH.
Qed.

Lemma get_None_keys m k : JsMap.get k m = None <-> ~ In k (JsMap.keys m).
Proof.
  induction m as [|[k' v'] rest IH]; simpl.
  - tauto.
  - destruct (String.eqb_spec k k') as [->|N]; split; intros H.
    + discriminate.
    + exfalso; auto.
    + intros [E|I]; [congruence | now apply IH in H].
    + apply IH. tauto.
Qed.

(** Writing under a present key keeps the keys as they stand. *)
Lemma keys_set_present m k v :
  In k (JsMap.keys m) -> JsMap.keys (JsMap.set k v m) = JsMap.keys m.
Proof.
  induction m as [|[k' v'] rest IH]; simpl; [tauto|].
  intros I. destruct (String.eqb_spec k k') as [->|N]; simpl; auto.
  f_equal. apply IH. destruct I; congruence.
Qed.

(** Writing under a new key appends it. *)
Lemma keys_set_new m k v :
  ~ In k (JsMap.keys m) -> JsMap.keys (JsMap.set k v m) = JsMap.keys m ++ [k].
Proof.
  induction m as [|[k' v'] rest IH]; simpl; auto.
  intros N. destruct (String.eqb_spec k k') as [->|D]; simpl.
  - tauto.
  - f_equal. apply IH. tauto.
Qed.

Lemma keys_set_In m k v : In k (JsMap.keys (JsMap.set k v m)).
Proof.
  apply Decidable.not_not.
  - unfold Decidable.decidable.
    destruct (in_dec string_dec k (JsMap.keys (JsMap.set k v m))); auto.
  - intros N. apply get_None_keys in N. rewrite get_set_same in N. discriminate.
Qed.
End JsMapFacts.

Section JsMapInvariant.
Context {V : Type}.
Implicit Types (m : JsMap.t V) (k : string) (v : V).

Lemma keys_set_incl m k v k' :
  In k' (JsMap.keys (JsMap.set k v m)) <-> k' = k \/ In k' (JsMap.keys m).
Proof.
  induction m as [|[k0 v0] rest IH]; simpl.
  - intuition.
  - destruct (String.eqb_spec k k0) as [->|N]; simpl.
    + intuition.
    + rewrite IH. intuition.
Qed.

Lemma NoDup_keys_set m k v :
  NoDup (JsMap.keys m) -> NoDup (JsMap.keys (JsMap.set k v m)).
Proof.
  induction m as [|[k0 v0] rest IH]; simpl; intros ND.
  - constructor; [tauto | constructor].
  - inversion ND as [|? ? Hin ND']; subst.
    destruct (String.eqb_spec k k0) as [->|N]; simpl.
    + now constructor.
    + constructor; [|auto].
      rewrite keys_set_incl. intros [E|I]; [congruence | contradiction].
Qed.

Lemma length_set m k v :
  length (JsMap.set k v m)
  = if JsMap.has k m then length m else S (length m).
Proof.
  unfold JsMap.has. induction m as [|[k0 v0] rest IH]; simpl; auto.
  destruct (String.eqb_spec k k0) as [->|N]; simpl; auto.
  rewrite IH. now destruct (JsMap.get k rest).
Qed.
End JsMapInvariant.

(** ** The own properties of a plain object *)
Section OwnProperties.
Implicit Types (o : Obj) (k : string) (v : Value).

Lemma get_insert_index_same n k v o :
  integer_key k = Some n -> JsMap.get k (insert_index n k v o) = Some v.
Proof.
  intros K. induction o as [|[k' v'] rest IH]; simpl.
  - now rewrite String.eqb_refl.
  - destruct (integer_key k') as [n'|] eqn:K'; [destruct (N.ltb_spec n' n)|]; simpl.
    + destruct (String.eqb_spec k k') as [->|_]; [|exact IH].
      rewrite K in K'. injection K' as <-. lia.
    + now rewrite String.eqb_refl.
    + now rewrite String.eqb_refl.
Qed.

Lemma get_insert_index_other n k v o k' :
  k <> k' -> JsMap.get k' (insert_index n k v o) = JsMap.get k' o.
Proof.
  intros D. induction o as [|[k0 v0] rest IH]; simpl.
  - destruct (String.eqb_spec k' k); congruence.
  - destruct (integer_key k0) as [n0|]; [destruct (N.ltb n0 n)|]; simpl.
    + now rewrite IH.
    + destruct (String.eqb_spec k' k); congruence.
    + destruct (String.eqb_spec k' k); congruence.
Qed.

Lemma keys_insert_index n k v o x :
  In x (JsMap.keys (insert_index n k v o)) <-> x = k \/ In x (JsMap.keys o).
Proof.
  induction o as [|[k0 v0] rest IH]; simpl.
  - intuition.
  - destruct (integer_key k0) as [n0|]; [destruct (N.ltb n0 n)|]; simpl.
    + rewrite IH. intuition.
    + intuition.
    + intuition.
Qed.

Lemma NoDup_keys_insert_index n k v o :
  ~ In k (JsMap.keys o) -> NoDup (JsMap.keys o) ->
  NoDup (JsMap.keys (insert_index n k v o)).
Proof.
  induction o as [|[k0 v0] rest IH]; simpl; intros N ND.
  - constructor; [tauto | constructor].
  - inversion ND as [|? ? Hin ND']; subst.
    destruct (integer_key k0) as [n0|]; [destruct (N.ltb n0 n)|]; simpl.
    + constructor; [|apply IH; tauto].
      rewrite keys_insert_index. intros [E|I]; [subst; tauto | contradiction].
    + constructor; [simpl; tauto | now constructor].
    + constructor; [simpl; tauto | now constructor].
Qed.

Lemma has_keys o k : JsMap.has k o = true <-> In k (JsMap.keys o).
Proof.
  unfold JsMap.has. pose proof (get_None_keys o k) as H.
  destruct (JsMap.get k o); split; intros I; try reflexivity; try discriminate.
  - apply Decidable.not_not.
    + destruct (in_dec string_dec k (JsMap.keys o)); [now left | now right].
    + intros N. apply H in N. discriminate.
  - exfalso. now apply H.
Qed.

Lemma get_own_set_same k v o : JsMap.get k (own_set k v o) = Some v.
Proof.
  unfold own_set. destruct (integer_key k) as [n|] eqn:K.
  - destruct (JsMap.has k o); [apply get_set_same | now apply get_insert_index_same].
  - apply get_set_same.
Qed.

Lemma get_own_set_other k v o k' :
  k <> k' -> JsMap.get k' (own_set k v o) = JsMap.get k' o.
Proof.
  intros D. unfold own_set. destruct (integer_key k) as [n|].
  - destruct (JsMap.has k o);
      [now apply get_set_other | now apply get_insert_index_other].
  - now apply get_set_other.
Qed.

Lemma keys_own_set k v o x :
  In x (JsMap.keys (own_set k v o)) <-> x = k \/ In x (JsMap.keys o).
Proof.
  unfold own_set. destruct (integer_key k) as [n|].
  - destruct (JsMap.has k o); [apply keys_set_incl | apply keys_insert_index].
  - apply keys_set_incl.
Qed.

Lemma NoDup_keys_own_set k v o :
  NoDup (JsMap.keys o) -> NoDup (JsMap.keys (own_set k v o)).
Proof.
  intros ND. unfold own_set. destruct (integer_key k) as [n|].
  - destruct (JsMap.has k o) eqn:H; [now apply NoDup_keys_set|].
    apply NoDup_keys_insert_index; [|assumption].
    intros I. apply has_keys in I. congruence.
  - now apply NoDup_keys_set.
Qed.
End OwnProperties.

Section Properties.
Context `{P : Platform}.

(** ** What a method leaves alone *)
Lemma with_world_same (a : Agent) : with_world (world a) a = a.
Proof. now destruct a. Qed.

Lemma ow_ret {A} (x : A) : only_world (ret x).
Proof. intros a. exists (world a). simpl. now rewrite with_world_same. Qed.

Lemma ow_throw {A} e : only_world (@throw Agent A e).
Proof. intros a. exists (world a). simpl. now rewrite with_world_same. Qed.

Lemma ow_lift {A} (r : Result A) : only_world (lift r).
Proof. intros a. exists (world a). simpl. now rewrite with_world_same. Qed.

Lemma ow_get : only_world (@get_state Agent).
Proof. intros a. exists (world a). simpl. now rewrite with_world_same. Qed.

Lemma ow_call {A} (f : World -> Result A * World) : only_world (call f).
Proof. intros a. unfold call. destruct (f (world a)) as [r w]. now exists w. Qed.

Lemma ow_ask {A} (f : World -> A * World) : only_world (ask f).
Proof. intros a. unfold ask. destruct (f (world a)) as [r w]. now exists w. Qed.

Lemma ow_log_info msg : only_world (log_info msg).
Proof. intros a. now eexists. Qed.

Lemma ow_log_warn msg : only_world (log_warn msg).
Proof. intros a. now eexists. Qed.

Lemma ow_bind {A B} (m : M A) (k : A -> M B) :
  only_world m -> (forall x, only_world (k x)) -> only_world (bind m k).
Proof.
  intros Hm Hk a. unfold bind. destruct (Hm a) as [w Hw].
  destruct (m a) as [[x|e] a1]; simpl in Hw; subst a1.
  - destruct (Hk x (with_world w a)) as [w' Hw']. exists w'. now rewrite Hw'.
  - now exists w.
Qed.

Lemma ow_try {A} (m : M A) (h : JsError -> M A) :
  only_world m -> (forall e, only_world (h e)) -> only_world (try_catch m h).
Proof.
  intros Hm Hh a. unfold try_catch. destruct (Hm a) as [w Hw].
  destruct (m a) as [[x|e] a1]; simpl in Hw; subst a1.
  - now exists w.
  - destruct (Hh e (with_world w a)) as [w' Hw']. exists w'. now rewrite Hw'.
Qed.

Lemma ow_try_any {A} (m : Agent -> Completion Thrown A * Agent) (h : Thrown -> M A) :
  only_world m -> (forall e, only_world (h e)) -> only_world (try_catch_any m h).
Proof.
  intros Hm Hh a. unfold try_catch_any. destruct (Hm a) as [w Hw].
  destruct (m a) as [[x|e] a1]; simpl in Hw; subst a1.
  - now exists w.
  - destruct (Hh e (with_world w a)) as [w' Hw']. exists w'. now rewrite Hw'.
Qed.

Lemma ow_raised (m : M Value) : only_world m -> only_world (raised m).
Proof.
  intros Hm a. unfold raised. destruct (Hm a) as [w Hw].
  destruct (m a) as [[x|e] a1]; simpl in *; now exists w.
Qed.

Create HintDb frame.
#[local] Hint Resolve ow_ret ow_throw ow_lift ow_get ow_call ow_ask
  ow_log_info ow_log_warn : frame.

(** Splits a method along its sequencing, handlers and branches. *)
Ltac frame :=
  repeat first
    [ solve [auto with frame]
    | apply ow_bind; [|intros ?]
    | apply ow_try; [|intros ?]
    | apply ow_try_any; [|intros ?]
    | apply ow_raised
    | match goal with
      | |- only_world (if ?b then _ else _) => destruct b
      | |- only_world (match ?o with Some _ => _ | None => _ end) => destruct o
      end ].

Lemma ow_random_hex : only_world random_hex.
Proof. unfold random_hex. frame. Qed.
#[local] Hint Resolve ow_random_hex : frame.

Lemma ow_message_content response : only_world (message_content response).
Proof. unfold message_content. frame. Qed.
#[local] Hint Resolve ow_message_content : frame.

Lemma ow_executeTool_with invoke toolName parameters :
  (forall h v, only_world (invoke h v)) ->
  only_world (executeTool_with invoke toolName parameters).
Proof. intros H. unfold executeTool_with. frame. Qed.

Lemma ow_call_handler depth : forall h parameters,
  only_world (call_handler depth h parameters).
Proof.
  induction depth as [|d IH]; intros h parameters; simpl; [frame|].
  destruct h; [unfold contractInteract | unfold tokenSwap | unfold ipfsStore
              | unfold nftCreate | ]; frame.
  intros a. destruct (f parameters (world a)) as [r w]. now exists w.
Qed.

Lemma ow_executeTool toolName parameters :
  only_world (executeTool toolName parameters).
Proof. apply ow_executeTool_with. intros. apply ow_call_handler. Qed.

Lemma ow_executeReasoning step results : only_world (executeReasoning step results).
Proof. unfold executeReasoning. frame. Qed.
#[local] Hint Resolve ow_executeTool ow_executeReasoning : frame.

Lemma ow_executeStep task step results : only_world (executeStep task step results).
Proof.
  unfold executeStep. frame.
Qed.

Lemma ow_createFinalReport task results : only_world (createFinalReport task results).
Proof. unfold createFinalReport. frame. Qed.

Lemma ow_createPlan task : only_world (createPlan task).
Proof. unfold createPlan. frame. Qed.


(** ** The registry *)

(** C9: registering two tool definitions with the same name leaves the later
    one in the registry: both registrations return without an error, a lookup
    of the name gives the second definition, and the second registration adds
    no key, it overwrites the binding of the first. *)
Theorem registerTool_last_write_wins (first second : Tool) (a : Agent) :
  name first = name second ->
  name first <> "" -> handler first <> None -> handler second <> None ->
  exists a1 a2,
    registerTool first a = (Ok tt, a1) /\
    registerTool second a1 = (Ok tt, a2) /\
    tools_get (VStr (name first)) a2 = Some second /\
    JsMap.keys (tools a2) = JsMap.keys (tools a1).
Proof.
  intros E N1 H1 H2. unfold registerTool. rewrite <- E.
  destruct (String.eqb_spec (name first) "") as [|_]; [contradiction|].
  destruct (handler first) as [h1|] eqn:F1; [|contradiction].
  destruct (handler second) as [h2|] eqn:F2; [|contradiction].
  simpl. do 2 eexists.
  split; [reflexivity|]. split; [reflexivity|]. split; simpl.
  - apply get_set_same.
  - apply keys_set_present, keys_set_In.
Qed.

(** ** executeTool *)

Lemma executeTool_with_unregistered invoke toolName parameters a :
  tools_get toolName a = None ->
  executeTool_with invoke toolName parameters a
  = (Throw (Error ("Tool not found: " ++ ToString toolName)), a).
Proof. intros H. unfold executeTool_with, bind, get_state. now rewrite H. Qed.

Lemma executeTool_with_registered invoke toolName parameters a tool h :
  tools_get toolName a = Some tool -> handler tool = Some h ->
  executeTool_with invoke toolName parameters a
  = try_catch_any (invoke h parameters)
      (fun error =>
         message <- lift (message_of error) ;;
         ret (VObj [("success", VBool false); ("error", message)])) a.
Proof. intros H F. unfold executeTool_with, bind at 1, get_state. now rewrite H, F. Qed.

(** What the catch of executeTool makes of a throw: the failure object when
    [error.message] can be read, the TypeError of that read when what was
    thrown is [undefined] or [null]. *)
Lemma executeTool_with_caught invoke toolName parameters a tool h error a' :
  tools_get toolName a = Some tool -> handler tool = Some h ->
  invoke h parameters a = (Throw error, a') ->
  executeTool_with invoke toolName parameters a
  = (match message_of error with
     | Ok message => Ok (VObj [("success", VBool false); ("error", message)])
     | Throw e => Throw e
     end, a').
Proof.
  intros H F T. rewrite (executeTool_with_registered _ _ _ _ H F).
  unfold try_catch_any. rewrite T. unfold bind, lift, ret.
  now destruct (message_of error).
Qed.

Lemma executeTool_with_returned invoke toolName parameters a tool h v a' :
  tools_get toolName a = Some tool -> handler tool = Some h ->
  invoke h parameters a = (Ok v, a') ->
  executeTool_with invoke toolName parameters a = (Ok v, a').
Proof.
  intros H F T. rewrite (executeTool_with_registered _ _ _ _ H F).
  unfold try_catch_any. now rewrite T.
Qed.


(** C5, as amended: for a name that is not in the registry, executeTool
    throws (it does not return a failure object).  What it throws is a plain
    Error, told apart by its message "Tool not found: <name>"; nothing has
    changed when it throws. *)
Theorem executeTool_unregistered (toolName parameters : Value) (a : Agent) :
  tools_get toolName a = None ->
  executeTool toolName parameters a
  = (Throw (mkError "Error" ("Tool not found: " ++ ToString toolName)), a).
Proof. apply executeTool_with_unregistered. Qed.

(** When the handler of a registered tool throws an [Error] object, or any
    value whose [message] can be read, executeTool returns the object
    [{ success: false, error: <that message> }], in the state the handler
    left. *)
Lemma executeTool_catches_readable (toolName parameters : Value) (a : Agent)
    (tool : Tool) (h : Handler) (error : Thrown) (message : Value) (a' : Agent) :
  tools_get toolName a = Some tool ->
  handler tool = Some h ->
  call_handler call_stack h parameters a = (Throw error, a') ->
  message_of error = Ok message ->
  executeTool toolName parameters a
  = (Ok (VObj [("success", VBool false); ("error", message)]), a').
Proof.
  intros H F T HM. unfold executeTool, executeTool_at.
  rewrite (executeTool_with_caught _ _ _ _ H F T). now rewrite HM.
Qed.

(** When it throws [undefined] or [null], the catch of executeTool throws
    in turn: [error.message] cannot be read. *)
Lemma executeTool_rethrows_unreadable (toolName parameters : Value) (a : Agent)
    (tool : Tool) (h : Handler) (v : Value) (a' : Agent) :
  tools_get toolName a = Some tool ->
  handler tool = Some h ->
  call_handler call_stack h parameters a = (Throw (ThrownValue v), a') ->
  nullish v = true ->
  executeTool toolName parameters a
  = (Throw (TypeError ("Cannot read properties of " ++ describe_nullish v
                       ++ " (reading 'message')")), a').
Proof.
  intros H F T N. unfold executeTool, executeTool_at.
  rewrite (executeTool_with_caught _ _ _ _ H F T).
  destruct v; try discriminate; reflexivity.
Qed.

(** ** run *)

(** C7, as amended: on an agent whose status is not idle, run throws at
    once a plain Error, told apart by its message 'Agent is already running a
    task': the agent is returned as it was, so the status, the registry, the
    event log and the external world are untouched and no step has run. *)
Theorem run_busy (task : Task) (a : Agent) :
  status a <> "idle" ->
  run task a = (Throw (mkError "Error" "Agent is already running a task"), a).
Proof.
  intros H. unfold run, bind, get_state.
  destruct (String.eqb_spec (status a) "idle"); [contradiction|reflexivity].
Qed.

(** [run] from idle: the prologue, then the guarded part. *)
Lemma run_idle (task : Task) (a : Agent) :
  status a = "idle" ->
  run task a
  = (taskId <- run_prologue task ;;
     try_catch
       (plan <- createPlan task ;;
        result <- executePlan plan task ;;
        modify (with_status "idle") ;;
        emit "taskComplete" (VObj [("taskId", VStr taskId); ("result", result)]) ;;
        ret result)
       (fun error =>
          modify (with_status "idle") ;;
          emit "taskFailed" (VObj [("taskId", VStr taskId);
                                   ("error", VStr (err_message error))]) ;;
          throw error)) a.
Proof.
  intros H. unfold run, run_prologue, bind at 1, get_state. rewrite H. simpl.
  unfold bind, ask. destruct (uuidv4 (world a)) as [taskId w]. reflexivity.
Qed.

(** Once [task.objective] has been read, run leaves the agent idle: both
    the end of the try block and its catch set the status back. *)
Lemma run_started_returns_to_idle (task : Task) (a : Agent) :
  status a = "idle" ->
  status (snd (run task a)) = "idle".
Proof.
  intros H. rewrite run_idle by assumption. unfold bind at 1.
  destruct (run_prologue task a) as [[taskId|e] a0] eqn:E0.
  - unfold try_catch, bind.
    destruct (createPlan task a0) as [[plan|e1] a1]; [|reflexivity].
    destruct (executePlan plan task a1) as [[result|e2] a2]; reflexivity.
  - unfold run_prologue, bind, ask in E0.
    destruct (uuidv4 (world a)); discriminate.
Qed.


Lemma run_prologue_returns (task : Task) (a : Agent) :
  run_prologue task a = (Ok (fst (uuidv4 (world a))), started task a).
Proof.
  unfold started, run_prologue, bind, ask.
  destruct (uuidv4 (world a)) as [taskId w]. reflexivity.
Qed.

Lemma createFinalReport_shape task results a report a' :
  createFinalReport task results a = (Ok report, a') ->
  exists summary,
    report = VObj [("success", VBool true); ("objective", objective task);
                   ("summary", summary); ("results", VObj results)].
Proof.
  unfold createFinalReport, bind at 1 2, get_state.
  destruct (call _ a) as [[response|e] a1]; [|discriminate].
  unfold bind. destruct (message_content response a1) as [[summary|e] a2];
    [|discriminate].
  unfold ret. intros [= <- _]. now exists summary.
Qed.

(** C10: when the plan was generated and every step completed without a
    throw, the report that run returns has [success] true and carries the
    whole results object of the loop, whatever the [success] flags inside
    the step results are; and run returns that report as soon as the summary
    call of [createFinalReport] answers. *)
Theorem run_report_success (task : Task) (a : Agent) (plan : Value)
    (steps : list Value) (results : Obj) (a1 a2 : Agent) :
  status a = "idle" ->
  createPlan task (started task a) = (Ok plan, a1) ->
  iterate plan "plan" = Ok steps ->
  executePlan_loop task steps (JsMap.empty Value) a1 = (Ok results, a2) ->
  (forall report a3,
      createFinalReport task results a2 = (Ok report, a3) ->
      fst (run task a) = Ok report)
  /\ (forall report,
      fst (run task a) = Ok report ->
      prop report "success" = Ok (VBool true)
      /\ prop report "results" = Ok (VObj results)).
Proof.
  intros H HP HI HL.
  assert (R : run task a
              = match createFinalReport task results a2 with
                | (Ok report, a3) =>
                    (Ok report,
                     logged ("taskComplete",
                             VObj [("taskId", VStr (fst (uuidv4 (world a))));
                                   ("result", report)])
                            (with_status "idle" a3))
                | (Throw e, a3) =>
                    (Throw e,
                     logged ("taskFailed",
                             VObj [("taskId", VStr (fst (uuidv4 (world a))));
                                   ("error", VStr (err_message e))])
                            (with_status "idle" a3))
                end).
  { rewrite run_idle by assumption. unfold bind at 1.
    rewrite run_prologue_returns. unfold try_catch, bind at 1. rewrite HP.
    unfold bind at 1, executePlan, bind at 1, lift. rewrite HI.
    unfold bind at 1. rewrite HL.
    destruct (createFinalReport task results a2) as [[report|e] a3]; reflexivity. }
  split.
  - intros report a3 HR. rewrite R, HR. reflexivity.
  - intros report HR. rewrite R in HR.
    destruct (createFinalReport task results a2) as [[report'|e] a3] eqn:HF;
      [|discriminate].
    simpl in HR. injection HR as ->.
    destruct (createFinalReport_shape _ _ _ HF) as [summary ->].
    split; reflexivity.
Qed.

(** ** The mint tool *)

(** C8: when the storage call of the mint handler returns a result whose
    [success] is false (or anything falsy), the handler stops there and
    returns that very result; so does a call of the mint tool through
    executeTool. *)
Theorem nftCreate_short_circuit (depth : nat) (params ipfsResult success : Value)
    (a a' : Agent) :
  nullish params = false ->
  executeTool_at depth (VStr "ipfsStore")
    (VObj [("content", field params "metadata"); ("type", VStr "metadata")]) a
  = (Ok ipfsResult, a') ->
  prop ipfsResult "success" = Ok success ->
  truthy success = false ->
  call_handler (S depth) nftCreate_handler params a = (Ok ipfsResult, a')
  /\ (forall tool,
        tools_get (VStr "nftCreate") a = Some tool ->
        handler tool = Some nftCreate_handler ->
        executeTool_at (S depth) (VStr "nftCreate") params a = (Ok ipfsResult, a')).
Proof.
  intros HN HS HP HT.
  assert (C : call_handler (S depth) nftCreate_handler params a = (Ok ipfsResult, a')).
  { change (call_handler (S depth) nftCreate_handler params a)
      with (raised (nftCreate (executeTool_with (call_handler depth)) params) a).
    unfold raised, nftCreate, destructure. rewrite HN.
    unfold bind at 1, lift at 1. unfold bind at 1.
    unfold executeTool_at in HS. rewrite HS.
    unfold bind at 1, lift at 1. rewrite HP. rewrite HT. reflexivity. }
  split; [exact C|].
  intros tool HG HH. unfold executeTool_at.
  now apply executeTool_with_returned with tool nftCreate_handler.
Qed.


(** ** The loop of executePlan *)

Lemma executePlan_round_eq task step results a :
  executePlan_round task step results a
  = match executeStep task step (own results) (logged (stepStart step) a) with
    | (Ok r, a1) => (Ok (store step r results), logged (stepComplete step r) a1)
    | (Throw e, a1) => (Throw e, logged (stepFailed step e) a1)
    end.
Proof.
  cbv beta iota zeta delta [executePlan_round bind emit modify try_catch ret throw
                              stepStart stepComplete stepFailed].
  destruct (executeStep task step (own results) _) as [[r|e] a1]; reflexivity.
Qed.


Lemma executePlan_rounds_app task pre post : forall results a,
  executePlan_rounds task (pre ++ post) results a
  = (r <- executePlan_rounds task pre results ;; executePlan_rounds task post r) a.
Proof.
  induction pre as [|step pre IH]; intros results a; simpl.
  - reflexivity.
  - unfold bind.
    destruct (executePlan_round task step results a) as [[r|e] a1].
    + rewrite IH. reflexivity.
    + reflexivity.
Qed.

(** The rounds that completed, read off the loop's result: one recorded
    result per step, the events of the rounds in plan order, and the results
    object built by storing the results in that order. *)
Lemma executePlan_rounds_completed task pre : forall results a results_k a_k,
  executePlan_rounds task pre results a = (Ok results_k, a_k) ->
  exists rs,
    length rs = length pre
    /\ emitted a_k = emitted a ++ rounds_events (combine pre rs)
    /\ results_k = stored (combine pre rs) results.
Proof.
  induction pre as [|step pre IH]; intros results a results_k a_k; simpl.
  - unfold ret. intros [= <- <-]. exists []. now rewrite app_nil_r.
  - unfold bind. rewrite executePlan_round_eq.
    destruct (ow_executeStep task step (own results) (logged (stepStart step) a))
      as [w Hw].
    destruct (executeStep task step (own results) (logged (stepStart step) a))
      as [[r|e] a1]; [|discriminate].
    simpl in Hw; subst a1. intros HL.
    destruct (IH _ _ _ _ HL) as (rs & Hlen & Hev & Hres).
    exists (r :: rs). simpl. repeat split.
    + now rewrite Hlen.
    + rewrite Hev. simpl. now rewrite <- !app_assoc.
    + exact Hres.
Qed.

(** The loop on a plain object is the rounds on it. *)
Lemma executePlan_loop_eq task steps (results : Obj) a :
  executePlan_loop task steps results a
  = match executePlan_rounds task steps (plain results) a with
    | (Ok r, a') => (Ok (own r), a')
    | (Throw e, a') => (Throw e, a')
    end.
Proof.
  unfold executePlan_loop, bind, ret.
  destruct (executePlan_rounds task steps (plain results) a) as [[r|e] a'];
    reflexivity.
Qed.

Lemma executePlan_loop_completed task steps : forall (results : Obj) a results' a',
  executePlan_loop task steps results a = (Ok results', a') ->
  exists rs,
    length rs = length steps
    /\ emitted a' = emitted a ++ rounds_events (combine steps rs)
    /\ results' = own (stored (combine steps rs) (plain results)).
Proof.
  intros results a results' a'. rewrite executePlan_loop_eq.
  destruct (executePlan_rounds task steps (plain results) a) as [[r|e] a1] eqn:E;
    [|discriminate].
  intros [= <- <-].
  destruct (executePlan_rounds_completed _ _ _ _ E) as (rs & Hlen & Hev & ->).
  now exists rs.
Qed.

Lemma store_get_same s r (results : Results) :
  step_key s <> "__proto__" ->
  JsMap.get (step_key s) (own (store s r results)) = Some r.
Proof.
  intros N. unfold store. fold (step_key s).
  destruct (String.eqb_spec (step_key s) "__proto__"); [contradiction|].
  apply get_own_set_same.
Qed.

Lemma store_get_other s r (results : Results) k :
  k <> step_key s ->
  JsMap.get k (own (store s r results)) = JsMap.get k (own results).
Proof.
  intros N. unfold store. fold (step_key s).
  destruct (_ && _ && _); [reflexivity|].
  apply get_own_set_other. congruence.
Qed.

(** A round's write adds at most the key of its step, and adds it unless the
    key is [__proto__]. *)
Lemma store_keys s r (results : Results) x :
  (In x (JsMap.keys (own (store s r results)))
   -> x = step_key s \/ In x (JsMap.keys (own results)))
  /\ ((x = step_key s /\ x <> "__proto__") \/ In x (JsMap.keys (own results))
      -> In x (JsMap.keys (own (store s r results)))).
Proof.
  unfold store. fold (step_key s).
  destruct (String.eqb_spec (step_key s) "__proto__") as [E|N]; simpl andb.
  - destruct (_ && _); simpl own.
    + split; [tauto|]. intros [[-> Hx]|I]; [congruence | exact I].
    + rewrite keys_own_set. tauto.
  - simpl own. rewrite keys_own_set. tauto.
Qed.

Lemma store_NoDup s r (results : Results) :
  NoDup (JsMap.keys (own results)) -> NoDup (JsMap.keys (own (store s r results))).
Proof.
  intros ND. unfold store. destruct (_ && _ && _); [assumption|].
  now apply NoDup_keys_own_set.
Qed.

Lemma stored_cons s r pairs (results : Results) :
  stored ((s, r) :: pairs) results = stored pairs (store s r results).
Proof. reflexivity. Qed.

Lemma stored_get_other pairs : forall (results : Results) k,
  ~ In k (map step_key (map fst pairs)) ->
  JsMap.get k (own (stored pairs results)) = JsMap.get k (own results).
Proof.
  induction pairs as [|[s r] pairs IH]; intros results k N.
  - reflexivity.
  - rewrite stored_cons, IH by (simpl in N; tauto).
    apply store_get_other. simpl in N. intuition.
Qed.

(** Every key of the results object is the id of a step stored so far, or was
    there before; every such id but [__proto__] is a key. *)
Lemma stored_keys_incl (pairs : list (Value * Value)) : forall (results : Results) k,
  (In k (JsMap.keys (own (stored pairs results)))
   -> In k (JsMap.keys (own results)) \/ In k (map step_key (map fst pairs)))
  /\ (In k (JsMap.keys (own results))
       \/ (In k (map step_key (map fst pairs)) /\ k <> "__proto__")
      -> In k (JsMap.keys (own (stored pairs results)))).
Proof.
  induction pairs as [|[s r] pairs IH]; intros results k.
  - simpl. tauto.
  - rewrite stored_cons. destruct (IH (store s r results) k) as [IH1 IH2].
    destruct (store_keys s r results k) as [S1 S2]. simpl map. simpl In. split.
    + intros I. apply IH1 in I. destruct I as [I|I]; [|tauto].
      apply S1 in I. destruct I as [->|I]; tauto.
    + intros I. apply IH2.
      destruct I as [I|[[E|I] N]]; [left; apply S2; tauto | | tauto].
      left. apply S2. left. split; congruence.
Qed.

Lemma stored_NoDup (pairs : list (Value * Value)) : forall (results : Results),
  NoDup (JsMap.keys (own results)) -> NoDup (JsMap.keys (own (stored pairs results))).
Proof.
  induction pairs as [|[s r] pairs IH]; intros results ND; [exact ND|].
  rewrite stored_cons. apply IH. now apply store_NoDup.
Qed.

Lemma map_fst_combine {A B} (l : list A) : forall (l' : list B),
  length l' = length l -> map fst (combine l l') = l.
Proof.
  induction l as [|x l IH]; intros [|y l'] H; simpl in *; try discriminate; auto.
  f_equal. apply IH. congruence.
Qed.

(** The id of a step, when no later step has it, gives the result recorded
    for that step. *)
Lemma stored_get_last (pre : list Value) : forall rs (results : Results) i s r,
  length rs = length pre ->
  nth_error pre i = Some s -> nth_error rs i = Some r ->
  step_key s <> "__proto__" ->
  (forall j s', i < j -> nth_error pre j = Some s' -> step_key s' <> step_key s) ->
  JsMap.get (step_key s) (own (stored (combine pre rs) results)) = Some r.
Proof.
  induction pre as [|s0 pre IH]; intros rs results i s r Hlen Hs Hr HP Hlast.
  - destruct i; discriminate.
  - destruct rs as [|r0 rs]; [discriminate|].
    simpl combine. rewrite stored_cons.
    destruct i as [|i]; simpl in Hs, Hr.
    + injection Hs as ->. injection Hr as ->.
      rewrite stored_get_other; [now apply store_get_same|].
      rewrite map_fst_combine by (simpl in Hlen; congruence).
      intros I. apply in_map_iff in I. destruct I as (s' & E & I).
      apply In_nth_error in I. destruct I as [j Hj].
      apply (Hlast (S j) s'); [lia | exact Hj | exact E].
    + apply IH with i; auto.
      intros j s' L Hj. apply (Hlast (S j) s'); [lia | exact Hj].
Qed.

Lemma NoDup_nth_error_later {A} (f : A -> string) (l : list A) :
  NoDup (map f l) ->
  forall i j x y, i < j -> nth_error l i = Some x -> nth_error l j = Some y ->
                  f y <> f x.
Proof.
  intros ND i j x y L Hx Hy E.
  assert (Hi : nth_error (map f l) i = Some (f x)) by now rewrite nth_error_map, Hx.
  assert (Hj : nth_error (map f l) j = Some (f x))
    by (rewrite nth_error_map, Hy; simpl; now rewrite E).
  assert (B : i < length (map f l)) by (apply nth_error_Some; congruence).
  pose proof (proj1 (NoDup_nth_error (map f l)) ND i j B) as U.
  rewrite Hi, Hj in U. specialize (U eq_refl). lia.
Qed.

Lemma executeStep_fallback task step tool results a :
  prop step "tool" = Ok tool ->
  truthy tool && tools_has tool a = false ->
  executeStep task step results a = executeReasoning step results a.
Proof.
  intros HT H. unfold executeStep, bind at 1, lift at 1. rewrite HT.
  unfold bind at 1, get_state. now rewrite H.
Qed.

(** C1, as amended: executePlan runs the steps in plan order, each round
    storing its result under the step's id before the next round begins.
    Once the rounds of steps 1..k-1 have completed, with the events
    stepStart and stepComplete of these steps in plan order as the only
    events, executePlan goes on with the round of step k on the results
    object they left, then with the later steps and the report; the round
    starts with stepStart of step k, and a step without a registered tool
    passes that object to executeReasoning.  Under the id of an earlier step,
    [__proto__] apart, the object holds the recorded result of the last
    earlier step with this id, and it has no other keys than ids of earlier
    steps.  It holds exactly the recorded results of steps 1..k-1 when their
    ids differ from one another and from [__proto__]. *)
Theorem executePlan_order_and_priorResults (plan : Value) (task : Task)
    (pre : list Value) (step : Value) (post : list Value)
    (a : Agent) (results_k : Results) (a_k : Agent) :
  iterate plan "plan" = Ok (pre ++ step :: post) ->
  executePlan_rounds task pre (plain (JsMap.empty Value)) a = (Ok results_k, a_k) ->
  exists rs,
    length rs = length pre
    /\ emitted a_k = emitted a ++ rounds_events (combine pre rs)
    /\ executePlan plan task a
       = (results <- executePlan_round task step results_k ;;
          results <- executePlan_rounds task post results ;;
          createFinalReport task (own results)) a_k
    /\ executePlan_round task step results_k a_k
       = match executeStep task step (own results_k) (logged (stepStart step) a_k) with
         | (Ok r, a') => (Ok (store step r results_k), logged (stepComplete step r) a')
         | (Throw e, a') => (Throw e, logged (stepFailed step e) a')
         end
    /\ (forall tool,
          prop step "tool" = Ok tool ->
          truthy tool && tools_has tool a_k = false ->
          executeStep task step (own results_k) (logged (stepStart step) a_k)
          = executeReasoning step (own results_k) (logged (stepStart step) a_k))
    /\ (forall i s r,
          nth_error pre i = Some s -> nth_error rs i = Some r ->
          step_key s <> "__proto__" ->
          (forall j s', i < j -> nth_error pre j = Some s' -> step_key s' <> step_key s) ->
          JsMap.get (step_key s) (own results_k) = Some r)
    /\ (forall k, In k (JsMap.keys (own results_k)) -> In k (map step_key pre))
    /\ (NoDup (map step_key pre) -> ~ In "__proto__" (map step_key pre) ->
        holds_exactly (own results_k) pre rs).
Proof.
  intros HI HL.
  destruct (executePlan_rounds_completed _ _ _ _ HL) as (rs & Hlen & Hev & ->).
  assert (G : forall i s r,
             nth_error pre i = Some s -> nth_error rs i = Some r ->
             step_key s <> "__proto__" ->
             (forall j s', i < j -> nth_error pre j = Some s' ->
                           step_key s' <> step_key s) ->
             JsMap.get (step_key s)
               (own (stored (combine pre rs) (plain (JsMap.empty Value)))) = Some r).
  { intros i s r Hs Hr HP Hlast. now apply stored_get_last with i. }
  assert (K : forall k,
             In k (JsMap.keys (own (stored (combine pre rs)
                                      (plain (JsMap.empty Value)))))
             -> In k (map step_key pre)).
  { intros k I. apply stored_keys_incl in I.
    rewrite map_fst_combine in I by assumption. destruct I as [[]|I]; exact I. }
  exists rs. split; [exact Hlen|]. split; [exact Hev|]. split.
  { unfold executePlan, bind at 1, lift. rewrite HI.
    unfold bind at 1. rewrite executePlan_loop_eq, executePlan_rounds_app.
    unfold bind at 1. rewrite HL. simpl executePlan_rounds. unfold bind.
    destruct (executePlan_round task step _ a_k) as [[r1|e1] a1]; [|reflexivity].
    destruct (executePlan_rounds task post r1 a1) as [[r2|e2] a2]; reflexivity. }
  split; [apply executePlan_round_eq|]. split.
  { intros tool HT H. apply executeStep_fallback with tool; [exact HT|].
    destruct tool; exact H. }
  split; [exact G|]. split; [exact K|].
  intros ND NP. split; [|exact K].
  intros i s r Hs Hr. apply (G i s r Hs Hr).
  - intros E. apply NP. rewrite <- E. apply in_map. eapply nth_error_In, Hs.
  - intros j s' L Hj. exact (@NoDup_nth_error_later _ step_key pre ND i j s s' L Hs Hj).
Qed.

Lemma prop_defined v k x k' : prop v k = Ok x -> prop v k' = Ok (field v k').
Proof. destruct v; simpl; try discriminate; intros _; reflexivity. Qed.

Lemma executeStep_tool (task : Task) (step tool : Value) (results : Obj) (a : Agent) :
  prop step "tool" = Ok tool ->
  truthy tool = true -> tools_has tool a = true ->
  executeStep task step results a
  = executeTool tool
      (VObj (JsMap.set "walletAddress" (walletAddress task)
               (spread (field step "parameters")))) a.
Proof.
  intros HT T H. unfold executeStep, bind at 1, lift at 1. rewrite HT.
  unfold bind at 1, get_state. rewrite T, H. simpl.
  unfold bind, lift. now rewrite (@prop_defined _ _ _ "parameters" HT).
Qed.


(** ** createPlan *)

Lemma message_content_pure response a :
  snd (message_content response a) = a.
Proof.
  unfold message_content, bind, lift.
  repeat match goal with
         | |- context [prop ?v ?k] => destruct (prop v k); [|reflexivity]
         end.
  reflexivity.
Qed.

(** The malformed half: a message that [JSON.parse] refuses makes createPlan
    throw its plan error, and no step has started. *)
Lemma createPlan_malformed task a response w content e :
  openai_create (mkRequest (models_reasoning a) (planningPrompt task a) 0.2 true) (world a)
  = (Ok response, w) ->
  fst (message_content response (with_world w a)) = Ok content ->
  JSON_parse content = Throw e ->
  createPlan task a
  = (Throw (Error ("Failed to create plan: " ++ err_message e)), with_world w a).
Proof.
  intros HO HM HJ. unfold createPlan, bind at 1, get_state, bind at 1, call.
  rewrite HO. unfold try_catch, bind at 1.
  pose proof (message_content_pure response (with_world w a)) as HS.
  destruct (message_content response (with_world w a)) as [r a1].
  simpl in HM, HS. subst r a1. unfold lift, bind. now rewrite HJ.
Qed.

(** The other half: a message that parses to an object without [steps] makes
    createPlan return [undefined]; it does not throw. *)
Lemma createPlan_missing_steps task a response w content props :
  openai_create (mkRequest (models_reasoning a) (planningPrompt task a) 0.2 true) (world a)
  = (Ok response, w) ->
  fst (message_content response (with_world w a)) = Ok content ->
  JSON_parse content = Ok (VObj props) ->
  JsMap.get "steps" props = None ->
  createPlan task a = (Ok VUndefined, with_world w a).
Proof.
  intros HO HM HJ HG. unfold createPlan, bind at 1, get_state, bind at 1, call.
  rewrite HO. unfold try_catch, bind at 1.
  pose proof (message_content_pure response (with_world w a)) as HS.
  destruct (message_content response (with_world w a)) as [r a1].
  simpl in HM, HS. subst r a1. unfold lift, bind. rewrite HJ. simpl. now rewrite HG.
Qed.

End Properties.

(** * Further properties of the methods *)


Section Registry.
Context `{P : Platform}.

(** ** registerTool *)

(** X1: a tool definition without a name or without a handler is refused:
    registerTool throws the Error 'Tool must have a name and handler
    function', and the agent, its registry included, is as before. *)
Theorem registerTool_rejects_incomplete (toolDefinition : Tool) (a : Agent) :
  name toolDefinition = "" \/ handler toolDefinition = None ->
  registerTool toolDefinition a
  = (Throw (mkError "Error" "Tool must have a name and handler function"), a).
Proof.
  intros [E|E]; unfold registerTool; rewrite E.
  - reflexivity.
  - simpl. now rewrite orb_true_r.
Qed.

Lemma registerTool_valid (toolDefinition : Tool) (a : Agent) :
  name toolDefinition <> "" -> handler toolDefinition <> None ->
  registerTool toolDefinition a
  = (Ok tt, with_tools (JsMap.set (name toolDefinition) toolDefinition (tools a)) a).
Proof.
  intros N H. unfold registerTool.
  destruct (String.eqb_spec (name toolDefinition) ""); [contradiction|].
  destruct (handler toolDefinition); [reflexivity | contradiction].
Qed.

(** X2: after a definition with a name and a handler is registered, a lookup
    of its name gives that definition and [has] answers true; every other
    lookup answers as before, and the status, the event log and the world are
    untouched. *)
Theorem registerTool_then_lookup (toolDefinition : Tool) (a : Agent) :
  name toolDefinition <> "" -> handler toolDefinition <> None ->
  exists a',
    registerTool toolDefinition a = (Ok tt, a')
    /\ tools_get (VStr (name toolDefinition)) a' = Some toolDefinition
    /\ tools_has (VStr (name toolDefinition)) a' = true
    /\ (forall other, other <> VStr (name toolDefinition) ->
          tools_get other a' = tools_get other a)
    /\ status a' = status a /\ emitted a' = emitted a /\ world a' = world a.
Proof.
  intros N H. eexists. split; [now apply registerTool_valid|].
  simpl. unfold JsMap.has. rewrite get_set_same. repeat split.
  intros other D. destruct other; simpl; auto.
  apply get_set_other. congruence.
Qed.

(** X3: registerTool keeps the registry free of repeated names.  A
    registration that succeeds leaves the listing of names as it was when the
    name was present, and puts the name at the end of it when it was new. *)
Theorem registerTool_keeps_names_unique (toolDefinition : Tool) (a : Agent) :
  NoDup (JsMap.keys (tools a)) ->
  let a' := snd (registerTool toolDefinition a) in
  NoDup (JsMap.keys (tools a'))
  /\ (fst (registerTool toolDefinition a) = Ok tt ->
      JsMap.keys (tools a')
      = if tools_has (VStr (name toolDefinition)) a
        then JsMap.keys (tools a)
        else JsMap.keys (tools a) ++ [name toolDefinition]).
Proof.
  intros ND. unfold registerTool.
  destruct (String.eqb (name toolDefinition) "" || missing (handler toolDefinition));
    simpl.
  - split; [assumption | discriminate].
  - split; [now apply NoDup_keys_set|]. intros _.
    unfold JsMap.has.
    destruct (JsMap.get (name toolDefinition) (tools a)) eqn:G.
    + apply keys_set_present. apply Decidable.not_not.
      * destruct (in_dec string_dec (name toolDefinition) (JsMap.keys (tools a)));
          [now left | now right].
      * intros I. apply get_None_keys in I. congruence.
    + apply keys_set_new. now apply get_None_keys.
Qed.

(** ** enableTool *)

(** X4: enableTool returns without an error and registers nothing: the
    registry, the answer of [has] for the name, the status and the event log
    are as before; for a registered name nothing at all changes (for an
    unknown one a warning is logged). *)
Theorem enableTool_never_registers (toolName : Value) (a : Agent) :
  fst (enableTool toolName a) = Ok tt
  /\ tools (snd (enableTool toolName a)) = tools a
  /\ tools_has toolName (snd (enableTool toolName a)) = tools_has toolName a
  /\ status (snd (enableTool toolName a)) = status a
  /\ emitted (snd (enableTool toolName a)) = emitted a
  /\ (tools_has toolName a = true -> snd (enableTool toolName a) = a).
Proof.
  unfold enableTool, bind, get_state.
  destruct (tools_has toolName a) eqn:H; simpl.
  - rewrite H. repeat split.
  - repeat split; [now destruct toolName | discriminate].
Qed.

(** ** The constructor *)

Lemma forEach_enableTool_unlogged (names : list Value) (a : Agent) :
  forEach enableTool_unlogged names a
  = (if forallb (fun n => tools_has n a) names
     then Ok tt
     else Throw (TypeError "Cannot read properties of undefined (reading 'warn')"), a).
Proof.
  induction names as [|n names IH]; simpl; [reflexivity|].
  unfold bind, enableTool_unlogged at 1, bind, get_state.
  destruct (tools_has n a); simpl; [exact IH | reflexivity].
Qed.

Lemma has_builtin (toolName : Value) (a : Agent) :
  JsMap.keys (tools a) = builtin_names -> tools_has toolName a = builtin toolName.
Proof.
  intros K. destruct toolName; simpl; auto.
  unfold JsMap.has. destruct (tools a) as [|[k1 t1] [|[k2 t2] [|[k3 t3] [|[k4 t4] [|]]]]];
    try discriminate.
  injection K as -> -> -> ->. simpl.
  repeat match goal with
         | |- context [String.eqb s ?k] => destruct (String.eqb s k); simpl; auto
         end.
Qed.

Lemma constructor_eq (config : Config) (w : World) :
  clients_start config ->
  exists a0,
    constructor config w
    = match config_web3Tools config with
      | Some names => forEach enableTool_unlogged names a0
      | None => (Ok tt, a0)
      end
    /\ status a0 = "idle" /\ JsMap.keys (tools a0) = builtin_names
    /\ emitted a0 = [] /\ agent_id a0 = fst (uuidv4 w) /\ world a0 = snd (uuidv4 w)
    /\ networks a0 = match config_networks config with Some l => l | None => ["ethereum"] end
    /\ providers a0
       = filter (fun n => includes n (networks a0)) ["ethereum"; "polygon"; "solana"].
Proof.
  intros (HO & HE & HP & HI). unfold constructor.
  destruct (uuidv4 w) as [id w'].
  set (nets := match config_networks config with Some l => l | None => ["ethereum"] end)
    in *.
  clearbody nets.
  unfold bind at 1, lift at 1. rewrite HO.
  unfold bind at 1, initializeBlockchainProviders, bind at 1, get_state.
  cbn [networks]. unfold bind at 1 2.
  destruct (includes "ethereum" nets) eqn:E1;
    [unfold bind at 1, lift at 1; rewrite (HE eq_refl)|];
    (destruct (includes "polygon" nets) eqn:E2;
       [unfold bind at 1, lift at 1; rewrite (HP eq_refl)|]);
    destruct (includes "solana" nets) eqn:E3;
    cbn -[forEach enableTool_unlogged includes bind registerWeb3Tools lift];
    unfold bind at 1, lift at 1; rewrite HI;
    unfold bind at 1; cbn -[forEach enableTool_unlogged includes];
    eexists; (split; [destruct (config_web3Tools config); reflexivity|]);
    cbn -[includes]; rewrite ?E1, ?E2, ?E3; repeat split.
Qed.

(** X5: when the clients are built and [config.web3Tools] is absent or lists
    built-in names only, the constructor gives an idle agent whose registry
    holds exactly the four tools of registerWeb3Tools, in that order, with no
    event emitted; the networks that get a provider are the configured ones
    among ethereum, polygon and solana.  When [new OpenAI(..)] refuses the
    key, the constructor throws what it throws. *)
Theorem constructor_registers_builtins (config : Config) (w : World) :
  (forall names n,
      config_web3Tools config = Some names -> In n names -> builtin n = true) ->
  (clients_start config ->
   exists a,
     constructor config w = (Ok tt, a)
     /\ status a = "idle"
     /\ JsMap.keys (tools a) = builtin_names
     /\ emitted a = []
     /\ agent_id a = fst (uuidv4 w)
     /\ (forall n, In n (providers a)
                   <-> In n (networks a) /\ In n ["ethereum"; "polygon"; "solana"]))
  /\ (forall e,
        OpenAI_new (or_else (config_apiKey config) env_OPENAI_API_KEY) = Throw e ->
        fst (constructor config w) = Throw e).
Proof.
  intros H. split.
  - intros HC. destruct (constructor_eq w HC)
      as (a0 & E & Hs & Hk & He & Hi & Hw & Hn & Hp).
    exists a0. split.
    + rewrite E. destruct (config_web3Tools config) as [names|] eqn:C; [|reflexivity].
      rewrite forEach_enableTool_unlogged.
      replace (forallb (fun n => tools_has n a0) names) with true; [reflexivity|].
      symmetry. apply forallb_forall. intros n I.
      rewrite (has_builtin _ _ Hk). eauto.
    + do 4 (split; [assumption|]).
      intros n. rewrite Hp. unfold includes.
      rewrite filter_In, existsb_exists. split.
      * intros [I (x & Ix & Ex)]. apply String.eqb_eq in Ex. now subst x.
      * intros [I1 I2]. split; [assumption|].
        exists n. split; [assumption | apply String.eqb_refl].
  - intros e HO. unfold constructor. destruct (uuidv4 w) as [id w'].
    unfold bind at 1, lift at 1. now rewrite HO.
Qed.

(** X6: when the clients are built and [config.web3Tools] lists a name that
    is not one of the four built-in tools, the constructor throws a
    TypeError: enableTool reaches [this.logger.warn] while [this.logger] is
    still undefined, because the logger is assigned on the constructor's last
    line. *)
Theorem constructor_unknown_tool_throws (config : Config) (w : World)
    (names : list Value) (n : Value) :
  clients_start config ->
  config_web3Tools config = Some names ->
  In n names ->
  builtin n = false ->
  fst (constructor config w)
  = Throw (mkError "TypeError" "Cannot read properties of undefined (reading 'warn')").
Proof.
  intros HC C I B. destruct (constructor_eq w HC) as (a0 & E & _ & Hk & _).
  rewrite E, C, forEach_enableTool_unlogged.
  replace (forallb (fun n => tools_has n a0) names) with false; [reflexivity|].
  symmetry. apply not_true_is_false. intros F.
  rewrite forallb_forall in F. specialize (F n I).
  rewrite (has_builtin _ _ Hk) in F. congruence.
Qed.

End Registry.

Section Handlers.
Context `{P : Platform}.

(** ** The contract tool *)


(** X8: on a network with a provider the contract tool never throws: it
    returns [{ success: true, result }] with what the contract call gave, or
    [{ success: false, error }] with the message of what the call threw. *)
Theorem contractInteract_supported_network (params : Value) (a : Agent) :
  nullish params = false ->
  existsb (String.eqb (ToString (field params "network"))) (providers a) = true ->
  contractInteract params a
  = (match fst (contract_call params (world a)) with
     | Ok result => Ok (VObj [("success", VBool true); ("result", result)])
     | Throw e => Ok (VObj [("success", VBool false); ("error", VStr (err_message e))])
     end,
     with_world (snd (contract_call params (world a))) a).
Proof.
  intros N HS. unfold contractInteract, destructure. rewrite N.
  unfold bind at 1, lift, bind at 1, get_state. rewrite HS. simpl.
  unfold try_catch, bind, call.
  destruct (contract_call params (world a)) as [[result|e] w]; reflexivity.
Qed.

(** ** The swap tool *)



(** ** The storage tool *)

Lemma ipfsStore_serialised (params : Value) (text : string) (a : Agent) :
  nullish params = false ->
  JSON_stringify (field params "content") = Some text ->
  ipfsStore params a
  = (match ipfs_add text (world a) with
     | (Ok result, _) =>
         match prop result "path" with
         | Ok path =>
             Ok (VObj [("success", VBool true);
                       ("cid", path);
                       ("url", VStr ("ipfs://" ++ ToString path));
                       ("gatewayUrl", VStr ("https://ipfs.io/ipfs/" ++ ToString path))])
         | Throw e => Ok (soft_failure e)
         end
     | (Throw e, _) => Ok (soft_failure e)
     end,
     with_world (snd (ipfs_add text (world a))) a).
Proof.
  intros N HS. unfold ipfsStore, destructure. rewrite N, HS.
  unfold bind at 1, lift at 1, bind at 1, lift at 1, Buffer_from.
  unfold try_catch, bind, call, lift.
  destruct (ipfs_add text (world a)) as [[result|e] w]; simpl; [|reflexivity].
  destruct (prop result "path"); reflexivity.
Qed.

(** X10: with content that JSON.stringify serialises, the storage tool never
    throws.  When the storage service rejects, it returns
    [{ success: false, error: <message> }]; when the service answers with a
    path, it returns success with the path as [cid], 'ipfs://<path>' as
    [url] and the gateway address as [gatewayUrl]. *)
Theorem ipfsStore_outcomes (params : Value) (text : string) (a : Agent) :
  nullish params = false ->
  JSON_stringify (field params "content") = Some text ->
  (forall e w,
      ipfs_add text (world a) = (Throw e, w) ->
      ipfsStore params a
      = (Ok (VObj [("success", VBool false); ("error", VStr (err_message e))]),
         with_world w a))
  /\ (forall result w path,
      ipfs_add text (world a) = (Ok result, w) ->
      prop result "path" = Ok path ->
      ipfsStore params a
      = (Ok (VObj [("success", VBool true);
                   ("cid", path);
                   ("url", VStr ("ipfs://" ++ ToString path));
                   ("gatewayUrl", VStr ("https://ipfs.io/ipfs/" ++ ToString path))]),
         with_world w a))
  /\ (exists v a', ipfsStore params a = (Ok v, a')).
Proof.
  intros N HS. rewrite (ipfsStore_serialised _ _ N HS). repeat split.
  - intros e w H. now rewrite H.
  - intros result w path H HP. now rewrite H, HP.
  - destruct (ipfs_add text (world a)) as [[result|e] w]; simpl; eauto.
    destruct (prop result "path"); eauto.
Qed.

Lemma ipfsStore_unserialised (params : Value) (a : Agent) :
  nullish params = false ->
  JSON_stringify (field params "content") = None ->
  ipfsStore params a
  = (Throw (TypeError "The first argument must be of type string or an instance of Buffer, ArrayBuffer, or Array or an Array-like Object. Received undefined"), a).
Proof.
  intros N HS. unfold ipfsStore, destructure. rewrite N, HS. reflexivity.
Qed.

(** X11: with content that JSON.stringify maps to undefined (a missing
    [content], for one), the storage handler throws the TypeError of
    [Buffer.from] before it calls the storage service; through executeTool
    that is the failure object with the TypeError's message, and the agent
    and the world are as before. *)
Theorem ipfsStore_unserialisable_content (params : Value) (a : Agent) :
  nullish params = false ->
  JSON_stringify (field params "content") = None ->
  exists msg,
    ipfsStore params a = (Throw (mkError "TypeError" msg), a)
    /\ forall depth tool,
         tools_get (VStr "ipfsStore") a = Some tool ->
         handler tool = Some ipfsStore_handler ->
         executeTool_at (S depth) (VStr "ipfsStore") params a
         = (Ok (VObj [("success", VBool false); ("error", VStr msg)]), a).
Proof.
  intros N HS. pose proof (ipfsStore_unserialised _ a N HS) as U.
  eexists. split; [exact U|].
  intros depth tool G H. unfold executeTool_at.
  match type of U with
  | _ = (Throw ?e, _) =>
      assert (C : call_handler (S depth) ipfsStore_handler params a
                  = (Throw (ThrownError e), a))
        by (simpl call_handler; unfold raised; now rewrite U)
  end.
  now erewrite executeTool_with_caught by eassumption.
Qed.

(** ** The mint tool *)

(** X12: with the built-in storage tool registered and a storage service
    that answers with a path, the mint tool returns success and its
    [metadataUri] is 'ipfs://<path>', the [url] of the storage result; the
    status, the registry and the event log are untouched. *)
Theorem nftCreate_uses_storage_url (depth : nat) (params result path : Value)
    (text : string) (tool : Tool) (a : Agent) (w : World) :
  nullish params = false ->
  tools_get (VStr "ipfsStore") a = Some tool ->
  handler tool = Some ipfsStore_handler ->
  JSON_stringify (field params "metadata") = Some text ->
  ipfs_add text (world a) = (Ok result, w) ->
  prop result "path" = Ok path ->
  exists v a',
    call_handler (S (S depth)) nftCreate_handler params a = (Ok v, a')
    /\ prop v "success" = Ok (VBool true)
    /\ prop v "metadataUri" = Ok (VStr ("ipfs://" ++ ToString path))
    /\ status a' = status a /\ tools a' = tools a /\ emitted a' = emitted a.
Proof.
  intros N G H HS A HP.
  assert (E : executeTool_with (call_handler (S depth)) (VStr "ipfsStore")
                (VObj [("content", field params "metadata"); ("type", VStr "metadata")]) a
              = (Ok (VObj [("success", VBool true);
                           ("cid", path);
                           ("url", VStr ("ipfs://" ++ ToString path));
                           ("gatewayUrl", VStr ("https://ipfs.io/ipfs/" ++ ToString path))]),
                 with_world w a)).
  { apply executeTool_with_returned with tool ipfsStore_handler; [exact G|exact H|].
    simpl call_handler. unfold raised.
    rewrite (@ipfsStore_serialised _ text a); [|reflexivity|exact HS].
    now rewrite A, HP. }
  change (call_handler (S (S depth)) nftCreate_handler params a)
    with (raised (nftCreate (executeTool_with (call_handler (S depth))) params) a).
  unfold raised, nftCreate, destructure. rewrite N.
  unfold bind at 1, lift at 1, bind at 1. rewrite E.
  unfold bind, lift, ask, random_hex, bind, ask, ret. simpl.
  destruct (Math_random w) as [x w1]. simpl.
  destruct (Math_random w1) as [y w2]. simpl.
  do 2 eexists. split; [reflexivity|]. repeat split.
Qed.

(** ** Missing parameters *)

(** X13: executeTool on a tool with one of the four built-in handlers and
    parameters that are undefined or null returns a failure object (the
    message is the TypeError of the handler's destructuring); no service is
    called and nothing changes. *)
Theorem builtin_tool_without_parameters (depth : nat) (toolName params : Value)
    (tool : Tool) (h : Handler) (a : Agent) :
  tools_get toolName a = Some tool ->
  handler tool = Some h ->
  builtin_handler h = true ->
  nullish params = true ->
  exists msg,
    executeTool_at (S depth) toolName params a
    = (Ok (VObj [("success", VBool false); ("error", VStr msg)]), a).
Proof.
  intros G H B N. unfold executeTool_at.
  assert (C : exists msg,
             call_handler (S depth) h params a
             = (Throw (ThrownError (TypeError msg)), a)).
  { destruct h; try discriminate; simpl call_handler; unfold raised;
      [unfold contractInteract | unfold tokenSwap | unfold ipfsStore | unfold nftCreate];
      unfold destructure; rewrite N; eexists; reflexivity. }
  destruct C as [msg C]. exists msg.
  now erewrite executeTool_with_caught by eassumption.
Qed.

End Handlers.

Section Steps.
Context `{P : Platform}.

(** ** Steps on tools *)


(** X14: a step on a registered tool calls executeTool with the step's
    parameters and [walletAddress] set to the task's: the task's value
    replaces a [walletAddress] among the step's parameters, every other
    parameter is passed as it is. *)
Theorem tool_step_parameters (task : Task) (step tool : Value) (results : Obj)
    (a : Agent) :
  prop step "tool" = Ok tool ->
  truthy tool = true -> tools_has tool a = true ->
  exists parameters,
    executeStep task step results a = executeTool tool (VObj parameters) a
    /\ JsMap.get "walletAddress" parameters = Some (walletAddress task)
    /\ forall k, k <> "walletAddress" ->
         JsMap.get k parameters = JsMap.get k (spread (field step "parameters")).
Proof.
  intros HT T H. eexists. split; [now apply executeStep_tool|]. split.
  - apply get_set_same.
  - intros k N. apply get_set_other. congruence.
Qed.




(** X16: a step whose [tool] is not in the registry is executed by the
    reasoning fallback; executePlan never calls executeTool with an
    unregistered name, so such a step raises no tool-not-found error. *)
Theorem unregistered_tool_falls_back (task : Task) (step tool : Value)
    (results : Obj) (a : Agent) :
  prop step "tool" = Ok tool ->
  tools_has tool a = false ->
  executeStep task step results a = executeReasoning step results a.
Proof.
  intros HT H. unfold executeStep, bind at 1, lift at 1. rewrite HT.
  unfold bind at 1, get_state. rewrite H. now rewrite andb_false_r.
Qed.

(** ** The reasoning fallback *)

(** X17: when the reasoning service answers a step with a response that has
    no [choices], executeReasoning throws the TypeError of reading
    [choices[0]]; the fallback has no handler for a malformed response. *)
Theorem executeReasoning_malformed_response (step description response : Value)
    (previousResults : Obj) (a : Agent) (w : World) :
  prop step "description" = Ok description ->
  openai_create
    (mkRequest (models_execution a)
       (reasoningPrompt description previousResults) 0.5 false) (world a)
  = (Ok response, w) ->
  prop response "choices" = Ok VUndefined ->
  executeReasoning step previousResults a
  = (Throw (mkError "TypeError" "Cannot read properties of undefined (reading '0')"),
     with_world w a).
Proof.
  intros HD HO HC. unfold executeReasoning, bind at 1, lift at 1. rewrite HD.
  unfold bind at 1, get_state, bind at 1, call. rewrite HO.
  unfold bind at 1, message_content, bind at 1, lift at 1. now rewrite HC.
Qed.

(** X18: executeReasoning sends the step's description and the stringified
    previous results to the execution model; a rejection of the service is
    thrown on as it is, and whenever executeReasoning returns, its value is
    [{ success: true, reasoning: <text> }]. *)
Theorem executeReasoning_outcomes (step : Value) (previousResults : Obj) (a : Agent) :
  (forall description e w,
      prop step "description" = Ok description ->
      openai_create
        (mkRequest (models_execution a)
           (reasoningPrompt description previousResults) 0.5 false) (world a)
      = (Throw e, w) ->
      executeReasoning step previousResults a = (Throw e, with_world w a))
  /\ (forall v a',
      executeReasoning step previousResults a = (Ok v, a') ->
      exists reasoning,
        v = VObj [("success", VBool true); ("reasoning", reasoning)]).
Proof.
  split.
  - intros description e w HD HO. unfold executeReasoning, bind at 1, lift at 1.
    rewrite HD. unfold bind at 1, get_state, bind at 1, call. now rewrite HO.
  - intros v a'. unfold executeReasoning, bind at 1, lift at 1.
    destruct (prop step "description") as [description|e]; [|discriminate].
    unfold bind at 1, get_state, bind at 1.
    destruct (call _ a) as [[response|e] a1]; [|discriminate].
    unfold bind. destruct (message_content response a1) as [[reasoning|e] a2];
      [|discriminate].
    unfold ret. intros [= <- _]. now exists reasoning.
Qed.

(** ** createPlan *)

(** X19: when the planning request itself is rejected, createPlan throws the
    service's error as it is, not wrapped as a plan error: the request is
    awaited outside the try block. *)
Theorem createPlan_service_rejection_unwrapped (task : Task) (a : Agent)
    (e : JsError) (w : World) :
  openai_create (mkRequest (models_reasoning a) (planningPrompt task a) 0.2 true) (world a)
  = (Throw e, w) ->
  createPlan task a = (Throw e, with_world w a).
Proof.
  intros HO. unfold createPlan, bind at 1, get_state, bind at 1, call.
  now rewrite HO.
Qed.

(** X20: once the service has answered, every error createPlan throws is a
    plain Error whose message starts with 'Failed to create plan: ', and
    createPlan has changed nothing but the world. *)
Theorem createPlan_wraps_response_errors (task : Task) (a : Agent)
    (response : Value) (w : World) (e : JsError) (a' : Agent) :
  openai_create (mkRequest (models_reasoning a) (planningPrompt task a) 0.2 true) (world a)
  = (Ok response, w) ->
  createPlan task a = (Throw e, a') ->
  err_name e = "Error"
  /\ (exists cause, err_message e = ("Failed to create plan: " ++ cause)%string)
  /\ a' = with_world w a.
Proof.
  intros HO. unfold createPlan, bind at 1, get_state, bind at 1, call.
  rewrite HO. unfold try_catch, bind at 1.
  pose proof (message_content_pure response (with_world w a)) as HS.
  destruct (message_content response (with_world w a)) as [[content|e0] a1];
    simpl in HS; subst a1.
  - unfold bind, lift. destruct (JSON_parse content) as [parsed|e1].
    + destruct (prop parsed "steps") as [steps|e2]; [discriminate|].
      unfold throw. intros [= <- <-]. simpl. eauto.
    + unfold throw. intros [= <- <-]. simpl. eauto.
  - unfold throw. intros [= <- <-]. simpl. eauto.
Qed.

(** ** The loop of executePlan *)



(** ** The results object *)

(** X22: in the results object of a completed loop, the id of a step gives
    the result recorded for the last step that has this id: a later step
    with the same id overwrites the earlier result. *)
Theorem results_last_write_wins (task : Task) (steps : list Value)
    (a : Agent) (results : Obj) (a' : Agent) :
  ~ In "__proto__" (map step_key steps) ->
  executePlan_loop task steps (JsMap.empty Value) a = (Ok results, a') ->
  exists rs,
    length rs = length steps
    /\ emitted a' = emitted a ++ rounds_events (combine steps rs)
    /\ forall i s r,
         nth_error steps i = Some s -> nth_error rs i = Some r ->
         (forall j s', i < j -> nth_error steps j = Some s' -> step_key s' <> step_key s) ->
         JsMap.get (step_key s) results = Some r.
Proof.
  intros NP HL.
  destruct (executePlan_loop_completed _ _ _ _ HL) as (rs & Hlen & Hev & ->).
  exists rs. repeat split; auto.
  intros i s r Hs Hr Hlast. apply stored_get_last with i; auto.
  intros E. apply NP. rewrite <- E. apply in_map. eapply nth_error_In, Hs.
Qed.

(** X23: the keys of the results object of a completed loop are exactly the
    ids of the plan's steps (as strings), each once; there are no more
    entries than steps. *)
Theorem results_keys_are_step_ids (task : Task) (steps : list Value)
    (a : Agent) (results : Obj) (a' : Agent) :
  ~ In "__proto__" (map step_key steps) ->
  executePlan_loop task steps (JsMap.empty Value) a = (Ok results, a') ->
  (forall k, In k (JsMap.keys results) <-> In k (map step_key steps))
  /\ NoDup (JsMap.keys results)
  /\ length results <= length steps.
Proof.
  intros NP HL.
  destruct (executePlan_loop_completed _ _ _ _ HL) as (rs & Hlen & Hev & ->).
  set (results := own (stored (combine steps rs) (plain (JsMap.empty Value)))).
  assert (K : forall k, In k (JsMap.keys results) <-> In k (map step_key steps)).
  { intros k. unfold results.
    destruct (stored_keys_incl (combine steps rs) (plain (JsMap.empty Value)) k)
      as [K1 K2].
    rewrite map_fst_combine in K1, K2 by assumption. split.
    - intros I. destruct (K1 I) as [[]|I']. exact I'.
    - intros I. apply K2. right. split; [exact I|]. intros ->. contradiction. }
  assert (ND : NoDup (JsMap.keys results))
    by (apply stored_NoDup; constructor).
  repeat split; try apply K; auto.
  replace (length results) with (length (JsMap.keys results))
    by apply length_map.
  replace (length steps) with (length (map step_key steps)) by apply length_map.
  apply NoDup_incl_length; [exact ND|]. intros k I. now apply K.
Qed.

End Steps.

Section Run.
Context `{P : Platform}.

(** ** The events and the state of a run *)

Lemma step_event_start step : step_event (stepStart step).
Proof. unfold step_event. simpl. auto. Qed.

Lemma step_event_complete step r : step_event (stepComplete step r).
Proof. unfold step_event. simpl. auto. Qed.

Lemma step_event_failed step e : step_event (stepFailed step e).
Proof. unfold step_event. simpl. auto. Qed.

(** The loop changes the world and appends step events, nothing else. *)
Lemma executePlan_rounds_shape (task : Task) (steps : list Value) :
  forall (results : Results) (a : Agent),
  exists w evs,
    snd (executePlan_rounds task steps results a)
    = with_emitted (emitted a ++ evs) (with_world w a)
    /\ Forall step_event evs.
Proof.
  induction steps as [|step steps IH]; intros results a; simpl.
  - exists (world a), []. rewrite app_nil_r. split; [now destruct a | constructor].
  - unfold bind. rewrite executePlan_round_eq.
    destruct (ow_executeStep task step (own results) (logged (stepStart step) a))
      as [w Hw].
    destruct (executeStep task step (own results) (logged (stepStart step) a))
      as [[r|e] a1]; simpl in Hw; subst a1.
    + destruct (IH (store step r results)
                  (logged (stepComplete step r)
                     (with_world w (logged (stepStart step) a))))
        as (w' & evs & E & F).
      rewrite E. exists w', (stepStart step :: stepComplete step r :: evs). split.
      * unfold logged, with_emitted, with_world. simpl. f_equal.
        now rewrite <- !app_assoc.
      * constructor; [apply step_event_start|].
        constructor; [apply step_event_complete | exact F].
    + exists w, [stepStart step; stepFailed step e]. split.
      * unfold logged, with_emitted, with_world. simpl. f_equal.
        now rewrite <- !app_assoc.
      * constructor; [apply step_event_start|].
        constructor; [apply step_event_failed | constructor].
Qed.

Lemma executePlan_loop_shape (task : Task) (steps : list Value) :
  forall (results : Obj) (a : Agent),
  exists w evs,
    snd (executePlan_loop task steps results a)
    = with_emitted (emitted a ++ evs) (with_world w a)
    /\ Forall step_event evs.
Proof.
  intros results a.
  destruct (executePlan_rounds_shape task steps (plain results) a)
    as (w & evs & E & F).
  exists w, evs. split; [|exact F]. rewrite executePlan_loop_eq.
  destruct (executePlan_rounds task steps (plain results) a) as [[r|e] a1];
    exact E.
Qed.

Lemma executePlan_shape (plan : Value) (task : Task) (a : Agent) :
  exists w evs,
    snd (executePlan plan task a) = with_emitted (emitted a ++ evs) (with_world w a)
    /\ Forall step_event evs.
Proof.
  unfold executePlan, bind at 1, lift.
  destruct (iterate plan "plan") as [steps|e].
  - unfold bind.
    destruct (executePlan_loop_shape task steps (JsMap.empty Value) a)
      as (w & evs & E & F).
    destruct (executePlan_loop task steps (JsMap.empty Value) a) as [[results|e] a1];
      simpl in E; subst a1.
    + destruct (ow_createFinalReport task results
                  (with_emitted (emitted a ++ evs) (with_world w a))) as [w' E'].
      rewrite E'. exists w', evs. split; [reflexivity | assumption].
    + exists w, evs. split; [reflexivity | assumption].
  - exists (world a), []. rewrite app_nil_r. split; [now destruct a | constructor].
Qed.

Lemma run_shape (task : Task) (a : Agent) :
  status a = "idle" ->
  exists w middle outcome,
    run task a
    = (outcome,
       with_status "idle"
         (with_emitted
            (emitted a
             ++ ("taskStart", VObj [("taskId", VStr (fst (uuidv4 (world a))));
                                    ("objective", objective task)])
                :: middle
             ++ [closing_event (fst (uuidv4 (world a))) outcome])
            (with_world w a)))
    /\ Forall step_event middle.
Proof.
  intros H. rewrite run_idle by assumption. unfold bind at 1.
  rewrite run_prologue_returns.
  assert (E0 : emitted (started task a)
               = emitted a ++ [("taskStart",
                                VObj [("taskId", VStr (fst (uuidv4 (world a))));
                                      ("objective", objective task)])]).
  { unfold started, run_prologue, bind, ask.
    destruct (uuidv4 (world a)) as [taskId w0]. reflexivity. }
  assert (C0 : forall w e, with_status "idle" (with_emitted e (with_world w (started task a)))
                           = with_status "idle" (with_emitted e (with_world w a))).
  { intros w e. unfold started, run_prologue, bind, ask.
    destruct (uuidv4 (world a)) as [taskId w0]. reflexivity. }
  generalize dependent (started task a). intros a0 E0 C0.
  unfold try_catch, bind at 1.
  destruct (ow_createPlan task a0) as [w1 H1].
  destruct (createPlan task a0) as [[plan|e] a1]; simpl in H1; subst a1.
  - unfold bind at 1.
    destruct (executePlan_shape plan task (with_world w1 a0)) as (w2 & evs & E & F).
    destruct (executePlan plan task (with_world w1 a0)) as [[result|e] a2];
      simpl in E; subst a2.
    + exists w2, evs, (Ok result). split; [|assumption].
      cbv beta iota delta [bind modify emit ret]. f_equal. rewrite <- C0.
      unfold logged, with_status, with_emitted, with_world. simpl. f_equal.
      rewrite E0, <- !app_assoc. reflexivity.
    + exists w2, evs, (Throw e). split; [|assumption].
      cbv beta iota delta [bind modify emit throw]. f_equal. rewrite <- C0.
      unfold logged, with_status, with_emitted, with_world. simpl. f_equal.
      rewrite E0, <- !app_assoc. reflexivity.
  - exists w1, [], (Throw e). split; [|constructor].
    cbv beta iota delta [bind modify emit throw]. f_equal. rewrite <- C0.
    unfold logged, with_status, with_emitted, with_world. simpl. f_equal.
    rewrite E0, <- !app_assoc. reflexivity.
Qed.

(** X24: run on an idle agent with a task that is [undefined] or [null]
    throws the TypeError of reading [task.objective].  The status was set to
    'running' before that read, outside the try block, and stays so: no
    event is emitted, nothing is logged or planned, and every later run on
    the agent is refused as busy. *)
Theorem run_without_task_stays_running (task : Submitted) (a : Agent) :
  status a = "idle" ->
  task = task_undefined \/ task = task_null ->
  exists e,
    the_task task = Throw e
    /\ err_name e = "TypeError"
    /\ run task a
       = (Throw e, with_status "running" (with_world (snd (uuidv4 (world a))) a))
    /\ emitted (snd (run task a)) = emitted a
    /\ status (snd (run task a)) = "running"
    /\ forall next : Submitted,
         run next (snd (run task a))
         = (Throw (mkError "Error" "Agent is already running a task"),
            snd (run task a)).
Proof.
  intros H T.
  assert (E : exists e, the_task task = Throw e /\ err_name e = "TypeError")
    by (destruct T as [-> | ->]; eexists; split; reflexivity).
  destruct E as (e & HE & HN). exists e.
  assert (R : run task a
              = (Throw e, with_status "running"
                            (with_world (snd (uuidv4 (world a))) a))).
  { unfold run, bind at 1, get_state. rewrite H.
    change (negb ("idle" =? "idle")%string) with false. cbv iota beta.
    unfold bind, ask, modify, lift. destruct (uuidv4 (world a)) as [taskId w].
    now rewrite HE. }
  split; [exact HE|]. split; [exact HN|]. split; [exact R|].
  rewrite R. repeat split.
Qed.

(** X25: run never changes the registry, the agent's id and name, the model
    names, the networks or the providers, whatever the status it starts
    from. *)
Theorem run_keeps_registry (task : Task) (a : Agent) :
  tools (snd (run task a)) = tools a
  /\ agent_id (snd (run task a)) = agent_id a
  /\ agent_name (snd (run task a)) = agent_name a
  /\ models_reasoning (snd (run task a)) = models_reasoning a
  /\ models_execution (snd (run task a)) = models_execution a
  /\ networks (snd (run task a)) = networks a
  /\ providers (snd (run task a)) = providers a.
Proof.
  destruct (String.eqb_spec (status a) "idle") as [H|H].
  - destruct (run_shape task a H) as (w & middle & outcome & E & _). rewrite E.
    repeat split.
  - unfold run, bind, get_state.
    destruct (String.eqb_spec (status a) "idle"); [contradiction | repeat split].
Qed.



End Run.

(** * Runs on the sample platform *)

Import Sample.
Unset Implicit Arguments.

Lemma executePlan_order_and_priorResults_witness :
  exists rs,
    length rs = length [s1; s2]
    /\ emitted after_two
       = emitted (agent [reply "think"] true) ++ rounds_events (combine [s1; s2] rs)
    /\ executePlan (VArr [s1; s2; s3]) task (agent [reply "think"] true)
       = (results <- executePlan_round task s3 (plain [("s1", boom); ("s2", refused)]) ;;
          results <- executePlan_rounds task [] results ;;
          createFinalReport task (own results)) after_two
    /\ holds_exactly [("s1", boom); ("s2", refused)] [s1; s2] rs.
Proof.
  destruct (@executePlan_order_and_priorResults platform
              (VArr [s1; s2; s3]) task [s1; s2] s3 []
              (agent [reply "think"] true)
              (plain [("s1", boom); ("s2", refused)]) after_two)
    as (rs & Hlen & Hev & Hrun & _ & _ & _ & _ & Hexact);
    [vm_compute; reflexivity | vm_compute; reflexivity |].
  exists rs. split; [exact Hlen|]. split; [exact Hev|]. split; [exact Hrun|].
  apply Hexact.
  - vm_compute. repeat (constructor; [simpl; intuition discriminate|]). constructor.
  - vm_compute. intuition discriminate.
Defined.

(** C1, the claim as stated fails.  In the plan [s1; s1_again; s3] the first
    two steps carry the same id: their rounds record [boom] and [refused],
    and the object the fallback of step 3 receives has the one entry
    [s1: refused]; the result recorded for step 1 is gone.  In the plan
    [s_proto; s3] the first step's id is [__proto__]: its round records
    [refused], and the object the fallback of step 2 receives is empty. *)
Lemma executePlan_priorResults_counterexample :
  (executePlan_rounds task [s1; s1_again] (plain (JsMap.empty Value))
     (agent [reply "think"] true)
   = (Ok (plain [("s1", refused)]), after_repeat_thinking)
   /\ emitted after_repeat_thinking
      = emitted (agent [reply "think"] true)
        ++ rounds_events (combine [s1; s1_again] [boom; refused])
   /\ executePlan (VArr [s1; s1_again; s3]) task (agent [reply "think"] true)
      = (results <- executePlan_round task s3 (plain [("s1", refused)]) ;;
         createFinalReport task (own results)) after_repeat_thinking
   /\ executeStep task s3 [("s1", refused)] (logged (stepStart s3) after_repeat_thinking)
      = executeReasoning s3 [("s1", refused)] (logged (stepStart s3) after_repeat_thinking)
   /\ ~ holds_exactly [("s1", refused)] [s1; s1_again] [boom; refused])
  /\ (executePlan_rounds task [s_proto] (plain (JsMap.empty Value))
        (agent [reply "think"] true)
      = (Ok (mkResults [] true), after_proto)
      /\ emitted after_proto
         = emitted (agent [reply "think"] true)
           ++ rounds_events (combine [s_proto] [refused])
      /\ executePlan (VArr [s_proto; s3]) task (agent [reply "think"] true)
         = (results <- executePlan_round task s3 (mkResults [] true) ;;
            createFinalReport task (own results)) after_proto
      /\ executeStep task s3 [] (logged (stepStart s3) after_proto)
         = executeReasoning s3 [] (logged (stepStart s3) after_proto)
      /\ ~ holds_exactly [] [s_proto] [refused]).
Proof.
  split; (split; [vm_compute; reflexivity|]); (split; [vm_compute; reflexivity|]);
    (split; [vm_compute; reflexivity|]); (split; [vm_compute; reflexivity|]).
  - intros [H _]. specialize (H 0 s1 boom eq_refl eq_refl).
    vm_compute in H. discriminate.
  - intros [H _]. specialize (H 0 s_proto refused eq_refl eq_refl).
    vm_compute in H. discriminate.
Qed.

Lemma registerTool_last_write_wins_witness :
  exists a1 a2,
    registerTool flaky (agent [] true) = (Ok tt, a1) /\
    registerTool flaky_again a1 = (Ok tt, a2) /\
    tools_get (VStr "flaky") a2 = Some flaky_again /\
    JsMap.keys (tools a2) = JsMap.keys (tools a1).
Proof.
  apply (registerTool_last_write_wins flaky flaky_again (agent [] true));
    [vm_compute; reflexivity | discriminate | discriminate | discriminate].
Defined.

(** C3: the tool [nuller] is registered and its handler throws [null].
    The catch of executeTool reads [error.message] of what was thrown, and
    that read throws: executeTool throws a TypeError where the claim has it
    return a failure object. *)
Theorem executeTool_handler_throws_null :
  tools_get (VStr "nuller") (careless []) = Some nuller
  /\ handler nuller
     = Some (external_handler (fun _ w => (Throw (ThrownValue VNull), w)))
  /\ (forall h, handler nuller = Some h ->
        call_handler call_stack h (VObj []) (careless [])
        = (Throw (ThrownValue VNull), careless []))
  /\ executeTool (VStr "nuller") (VObj []) (careless [])
     = (Throw (mkError "TypeError" "Cannot read properties of null (reading 'message')"),
        careless []).
Proof.
  split; [vm_compute; reflexivity|]. split; [reflexivity|]. split.
  - intros h [= <-]. vm_compute. reflexivity.
  - vm_compute. reflexivity.
Qed.

(** The handlers that throw an [Error] object are caught: the tool [flaky]
    throws [Error('boom')] and executeTool returns the failure object. *)
Example executeTool_handler_throws_error :
  executeTool (VStr "flaky") (VObj []) (agent [] true) = (Ok boom, agent [] true).
Proof.
  eapply executeTool_catches_readable
    with (tool := flaky) (error := ThrownError (Error "boom"));
    [vm_compute; reflexivity | reflexivity | vm_compute; reflexivity | reflexivity].
Qed.

Lemma executeTool_unregistered_witness :
  executeTool (VStr "missingTool") (VObj []) (agent [] true)
  = (Throw (mkError "Error" "Tool not found: missingTool"), agent [] true).
Proof.
  apply (executeTool_unregistered (VStr "missingTool") (VObj []) (agent [] true)).
  vm_compute; reflexivity.
Defined.

(** C5, the claim as stated fails: the error that executeTool throws for the
    unregistered name [missingTool] is the plain Error, not an error with a
    class of its own. *)
Lemma executeTool_unregistered_counterexample :
  tools_get (VStr "missingTool") (agent [] true) = None
  /\ ~ (exists e,
          fst (executeTool (VStr "missingTool") (VObj []) (agent [] true)) = Throw e
          /\ own_class e).
Proof.
  split; [vm_compute; reflexivity|].
  intros (e & H & N). vm_compute in H. injection H as <-. now apply N.
Qed.

Lemma run_busy_witness :
  run task (with_status "running" (agent (script plan_text) true))
  = (Throw (mkError "Error" "Agent is already running a task"),
     with_status "running" (agent (script plan_text) true)).
Proof. apply run_busy. simpl. discriminate. Defined.

(** C7, the claim as stated fails: the error that run throws on the busy
    agent is the plain Error, not an error with a class of its own. *)
Lemma run_busy_counterexample :
  status (with_status "running" (agent (script plan_text) true)) <> "idle"
  /\ ~ (exists e,
          fst (run task (with_status "running" (agent (script plan_text) true)))
          = Throw e
          /\ own_class e).
Proof.
  split; [vm_compute; discriminate|].
  intros (e & H & N). vm_compute in H. injection H as <-. now apply N.
Qed.

(** C6: run is called without a task on an idle agent.  It throws the
    TypeError of reading [task.objective], which comes after the status is
    set to 'running' and before the try block: the agent is left 'running',
    no event tells of the failure, and the next run, with a proper task, is
    refused as busy. *)
Theorem run_without_task_evaluated :
  status (agent (script plan_text) true) = "idle"
  /\ run task_undefined (agent (script plan_text) true)
     = (Throw (mkError "TypeError"
                 "Cannot read properties of undefined (reading 'objective')"),
        with_status "running" (agent (script plan_text) true))
  /\ status (snd (run task_undefined (agent (script plan_text) true))) = "running"
  /\ emitted (snd (run task_undefined (agent (script plan_text) true))) = []
  /\ run task (snd (run task_undefined (agent (script plan_text) true)))
     = (Throw (mkError "Error" "Agent is already running a task"),
        with_status "running" (agent (script plan_text) true)).
Proof.
  split; [vm_compute; reflexivity|]. split; [vm_compute; reflexivity|].
  split; [vm_compute; reflexivity|]. split; vm_compute; reflexivity.
Qed.

(** With a task object, the same agent ends idle, whether the run returns or
    throws. *)
Example run_started_returns_to_idle_evaluated :
  status (snd (run task (agent (script plan_text) true))) = "idle"
  /\ status (snd (run task (agent [reply "not json"] true))) = "idle".
Proof. split; apply run_started_returns_to_idle; vm_compute; reflexivity. Qed.

Lemma run_report_success_witness :
  fst (run task (agent (script plan_text) true)) = Ok report
  /\ prop report "success" = Ok (VBool true)
  /\ prop report "results" = Ok (VObj [("s1", boom); ("s2", refused); ("s3", thought)]).
Proof.
  assert (T : (forall r a3,
                 createFinalReport task [("s1", boom); ("s2", refused); ("s3", thought)]
                   finished = (Ok r, a3) ->
                 fst (run task (agent (script plan_text) true)) = Ok r)
              /\ (forall r,
                 fst (run task (agent (script plan_text) true)) = Ok r ->
                 prop r "success" = Ok (VBool true)
                 /\ prop r "results"
                    = Ok (VObj [("s1", boom); ("s2", refused); ("s3", thought)]))).
  { refine (run_report_success task (agent (script plan_text) true)
              (plan := VArr [s1; s2; s3]) (steps := [s1; s2; s3])
              (results := [("s1", boom); ("s2", refused); ("s3", thought)])
              (a1 := planned) (a2 := finished) _ _ _ _);
      vm_compute; reflexivity. }
  destruct T as [T1 T2].
  assert (R : fst (run task (agent (script plan_text) true)) = Ok report).
  { apply (T1 report (snd (createFinalReport task
                             [("s1", boom); ("s2", refused); ("s3", thought)] finished))).
    vm_compute; reflexivity. }
  split; [exact R | exact (T2 report R)].
Defined.

Lemma nftCreate_short_circuit_witness :
  call_handler 8 nftCreate_handler collectible (agent [] false) = (Ok down, agent [] false).
Proof.
  refine (proj1 (nftCreate_short_circuit 7 collectible (agent [] false)
                   (ipfsResult := down) (success := VBool false) _ _ _ _));
    vm_compute; reflexivity.
Defined.


(** The keys of the results object are listed as the engine lists them: the
    ids that are array indices first, in ascending order, then the other ids
    in the order of their first write. *)
Example results_keys_order :
  fst (executePlan_loop task [refusing "b"; refusing "10"; refusing "a"; refusing "9"]
         (JsMap.empty Value) (agent [] true))
  = Ok [("9", refused); ("10", refused); ("b", refused); ("a", refused)].
Proof. vm_compute. reflexivity. Qed.

(** The other case of C4 as amended: the handler of step 1 throws [null],
    the round of step 1 fails with the TypeError of the catch, and step 2 is
    never started. *)
Example handler_throws_null_and_plan_stops :
  executePlan (VArr [s_null; s3]) task (careless [reply "think"])
  = (Throw (mkError "TypeError" "Cannot read properties of null (reading 'message')"),
     logged (stepFailed s_null
               (mkError "TypeError" "Cannot read properties of null (reading 'message')"))
       (logged (stepStart s_null) (careless [reply "think"]))).
Proof. vm_compute. reflexivity. Qed.


(** C2: the service answers with an object that has no [steps].  createPlan
    returns [undefined] where the claim has it throw the plan error; the run
    fails afterwards, in executePlan, with a TypeError about iteration, and
    the message of taskFailed is that TypeError's. *)
Theorem createPlan_missing_steps_evaluated :
  JSON_parse (VStr no_steps_text) = Ok (VObj [("plan", VArr [])])
  /\ fst (createPlan task (started task (agent [reply no_steps_text] true)))
     = Ok VUndefined
  /\ fst (run task (agent [reply no_steps_text] true))
     = Throw (mkError "TypeError" "plan is not iterable")
  /\ emitted (snd (run task (agent [reply no_steps_text] true)))
     = [("taskStart", VObj [("taskId", VStr "6f1c2a9e-0000-4000-8000-000000000001");
                            ("objective", VStr "mint a collectible")]);
        ("taskFailed", VObj [("taskId", VStr "6f1c2a9e-0000-4000-8000-000000000001");
                             ("error", VStr "plan is not iterable")])].
Proof. repeat split; vm_compute; reflexivity. Qed.

(** The malformed half of C2 on the sample: a message that is not JSON makes
    createPlan throw its plan error, and the run fails with it before any
    step starts. *)
Example createPlan_malformed_evaluated :
  fst (createPlan task (started task (agent [reply "not json"] true)))
  = Throw (mkError "Error" "Failed to create plan: Unexpected token in JSON")
  /\ fst (run task (agent [reply "not json"] true))
     = Throw (mkError "Error" "Failed to create plan: Unexpected token in JSON")
  /\ map fst (emitted (snd (run task (agent [reply "not json"] true))))
     = ["taskStart"; "taskFailed"].
Proof. repeat split; vm_compute; reflexivity. Qed.

(** * More runs on the sample platform *)

(** Closes a side condition by evaluation. *)
Ltac evaluated := vm_compute; first [reflexivity | discriminate | intuition discriminate].

Lemma registerTool_rejects_incomplete_witness :
  registerTool nameless (agent [] true)
  = (Throw (mkError "Error" "Tool must have a name and handler function"), agent [] true).
Proof.
  apply (@registerTool_rejects_incomplete platform nameless (agent [] true)).
  left. reflexivity.
Defined.

Lemma registerTool_then_lookup_witness :
  exists a',
    registerTool ipfs_stub (agent [] true) = (Ok tt, a')
    /\ tools_get (VStr (name ipfs_stub)) a' = Some ipfs_stub
    /\ tools_has (VStr (name ipfs_stub)) a' = true
    /\ (forall other, other <> VStr (name ipfs_stub) ->
          tools_get other a' = tools_get other (agent [] true))
    /\ status a' = status (agent [] true)
    /\ emitted a' = emitted (agent [] true)
    /\ world a' = world (agent [] true).
Proof.
  apply (@registerTool_then_lookup platform ipfs_stub (agent [] true)); evaluated.
Defined.

Lemma registerTool_keeps_names_unique_witness :
  NoDup (JsMap.keys (tools (snd (registerTool flaky_again (agent [] true))))).
Proof.
  refine (proj1 (@registerTool_keeps_names_unique platform flaky_again (agent [] true) _)).
  vm_compute. repeat (constructor; [simpl; intuition discriminate|]). constructor.
Defined.

Lemma constructor_registers_builtins_witness :
  exists a,
    constructor config_known fresh = (Ok tt, a)
    /\ status a = "idle"
    /\ JsMap.keys (tools a) = builtin_names
    /\ emitted a = []
    /\ agent_id a = fst (uuidv4 fresh)
    /\ (forall n, In n (providers a)
                  <-> In n (networks a) /\ In n ["ethereum"; "polygon"; "solana"]).
Proof.
  refine (proj1 (@constructor_registers_builtins platform config_known fresh _) _).
  - intros names n E I. simpl in E. injection E as <-.
    destruct I as [<-|[<-|[]]]; reflexivity.
  - repeat split; intros; reflexivity.
Defined.

Lemma constructor_unknown_tool_throws_witness :
  fst (constructor config_readme fresh)
  = Throw (mkError "TypeError" "Cannot read properties of undefined (reading 'warn')").
Proof.
  apply (@constructor_unknown_tool_throws platform config_readme fresh
           [VStr "walletConnect"; VStr "contractInteract"; VStr "tokenSwap"]
           (VStr "walletConnect"));
    [repeat split; intros; reflexivity | reflexivity | left; reflexivity | reflexivity].
Defined.


Lemma contractInteract_supported_network_witness :
  contractInteract on_ethereum (agent [] true)
  = (Ok (VObj [("success", VBool true); ("result", VNull)]), agent [] true).
Proof.
  rewrite (@contractInteract_supported_network platform on_ethereum (agent [] true));
    evaluated.
Defined.


Lemma ipfsStore_outcomes_witness :
  ipfsStore document (agent [] true)
  = (Ok (VObj [("success", VBool true);
               ("cid", VStr "Qm123");
               ("url", VStr "ipfs://Qm123");
               ("gatewayUrl", VStr "https://ipfs.io/ipfs/Qm123")]), agent [] true)
  /\ ipfsStore document (agent [] false) = (Ok down, agent [] false).
Proof.
  split.
  - rewrite (proj1 (proj2 (@ipfsStore_outcomes platform document "{a}" (agent [] true)
                             ltac:(evaluated) ltac:(evaluated)))
               (VObj [("path", VStr "Qm123")]) (world (agent [] true)) (VStr "Qm123"));
      evaluated.
  - rewrite (proj1 (@ipfsStore_outcomes platform document "{a}" (agent [] false)
                      ltac:(evaluated) ltac:(evaluated))
               (Error "connect ECONNREFUSED") (world (agent [] false)));
      evaluated.
Defined.

Lemma ipfsStore_unserialisable_content_witness :
  exists msg,
    ipfsStore (VObj []) (agent [] true) = (Throw (mkError "TypeError" msg), agent [] true)
    /\ forall depth tool,
         tools_get (VStr "ipfsStore") (agent [] true) = Some tool ->
         handler tool = Some ipfsStore_handler ->
         executeTool_at (S depth) (VStr "ipfsStore") (VObj []) (agent [] true)
         = (Ok (VObj [("success", VBool false); ("error", VStr msg)]), agent [] true).
Proof.
  apply (@ipfsStore_unserialisable_content platform (VObj []) (agent [] true));
    reflexivity.
Defined.

Lemma nftCreate_uses_storage_url_witness :
  exists v a',
    call_handler 8 nftCreate_handler collectible (agent [] true) = (Ok v, a')
    /\ prop v "success" = Ok (VBool true)
    /\ prop v "metadataUri" = Ok (VStr ("ipfs://" ++ ToString (VStr "Qm123")))
    /\ status a' = status (agent [] true)
    /\ tools a' = tools (agent [] true)
    /\ emitted a' = emitted (agent [] true).
Proof.
  apply (@nftCreate_uses_storage_url platform 6 collectible
           (VObj [("path", VStr "Qm123")]) (VStr "Qm123") "{name}"
           (mkTool "ipfsStore" "Store data on IPFS" (Some ipfsStore_handler))
           (agent [] true) (world (agent [] true)));
    evaluated.
Defined.

Lemma builtin_tool_without_parameters_witness :
  exists msg,
    executeTool_at 8 (VStr "tokenSwap") VUndefined (agent [] true)
    = (Ok (VObj [("success", VBool false); ("error", VStr msg)]), agent [] true).
Proof.
  apply (@builtin_tool_without_parameters platform 7 (VStr "tokenSwap") VUndefined
           (mkTool "tokenSwap" "Swap tokens on decentralized exchanges"
              (Some tokenSwap_handler))
           tokenSwap_handler (agent [] true));
    evaluated.
Defined.

Lemma tool_step_parameters_witness :
  exists parameters,
    executeStep task s_wallet (JsMap.empty Value) (agent [] true)
    = executeTool (VStr "refuse") (VObj parameters) (agent [] true)
    /\ JsMap.get "walletAddress" parameters = Some (walletAddress task)
    /\ forall k, k <> "walletAddress" ->
         JsMap.get k parameters = JsMap.get k (spread (field s_wallet "parameters")).
Proof.
  apply (@tool_step_parameters platform task s_wallet (VStr "refuse")
           (JsMap.empty Value) (agent [] true)); evaluated.
Defined.


Lemma unregistered_tool_falls_back_witness :
  executeStep task missing_step (JsMap.empty Value) (agent [reply "think"] true)
  = executeReasoning missing_step (JsMap.empty Value) (agent [reply "think"] true).
Proof.
  apply (@unregistered_tool_falls_back platform task missing_step (VStr "missingTool")
           (JsMap.empty Value) (agent [reply "think"] true)); evaluated.
Defined.

Lemma executeReasoning_malformed_response_witness :
  fst (executeReasoning s3 (JsMap.empty Value) (agent [Ok no_choices] true))
  = Throw (mkError "TypeError" "Cannot read properties of undefined (reading '0')").
Proof.
  erewrite (@executeReasoning_malformed_response platform s3 (VStr "wrap up") no_choices
              (JsMap.empty Value) (agent [Ok no_choices] true));
    [reflexivity | evaluated | vm_compute; reflexivity | evaluated].
Defined.

Lemma createPlan_service_rejection_unwrapped_witness :
  fst (createPlan task (agent [] true)) = Throw (mkError "Error" "Connection error.").
Proof.
  erewrite (@createPlan_service_rejection_unwrapped platform task (agent [] true));
    [reflexivity | vm_compute; reflexivity].
Defined.

Lemma createPlan_wraps_response_errors_witness :
  err_name (Error "Failed to create plan: Unexpected token in JSON") = "Error"
  /\ (exists cause,
        err_message (Error "Failed to create plan: Unexpected token in JSON")
        = ("Failed to create plan: " ++ cause)%string)
  /\ snd (createPlan task (agent [reply "not json"] true))
     = with_world (world (snd (createPlan task (agent [reply "not json"] true))))
         (agent [reply "not json"] true).
Proof.
  apply (@createPlan_wraps_response_errors platform task (agent [reply "not json"] true)
           (completion (VStr "not json")));
    vm_compute; reflexivity.
Defined.


Lemma results_last_write_wins_witness :
  exists rs,
    length rs = length [s1; s1_again]
    /\ emitted after_repeat
       = emitted (agent [] true) ++ rounds_events (combine [s1; s1_again] rs)
    /\ forall i s r,
         nth_error [s1; s1_again] i = Some s -> nth_error rs i = Some r ->
         (forall j s', i < j -> nth_error [s1; s1_again] j = Some s' ->
                       step_key s' <> step_key s) ->
         JsMap.get (step_key s) [("s1", refused)] = Some r.
Proof.
  apply (@results_last_write_wins platform task [s1; s1_again] (agent [] true)
           [("s1", refused)] after_repeat); evaluated.
Defined.

Lemma results_keys_are_step_ids_witness :
  (forall k, In k (JsMap.keys [("s1", refused)])
             <-> In k (map step_key [s1; s1_again]))
  /\ NoDup (JsMap.keys [("s1", refused)])
  /\ length [("s1", refused)] <= length [s1; s1_again].
Proof.
  apply (@results_keys_are_step_ids platform task [s1; s1_again] (agent [] true)
           [("s1", refused)] after_repeat); evaluated.
Defined.

Lemma run_without_task_stays_running_witness :
  exists e,
    the_task task_undefined = Throw e
    /\ err_name e = "TypeError"
    /\ run task_undefined (agent [] true)
       = (Throw e, with_status "running"
                     (with_world (snd (uuidv4 (world (agent [] true)))) (agent [] true)))
    /\ emitted (snd (run task_undefined (agent [] true))) = emitted (agent [] true)
    /\ status (snd (run task_undefined (agent [] true))) = "running"
    /\ forall next : Submitted,
         run next (snd (run task_undefined (agent [] true)))
         = (Throw (mkError "Error" "Agent is already running a task"),
            snd (run task_undefined (agent [] true))).
Proof.
  apply (@run_without_task_stays_running platform task_undefined (agent [] true));
    [vm_compute; reflexivity | left; reflexivity].
Defined.

